(** * prepare-member-import: merging the member roster with the account roster

    A shallow embedding of [scripts/prepare-member-import.py] and the
    properties of its normalisers, its account joiner, its record builder
    and its output document.

    Conventions of the embedding.
    - A Python [str] is a [string] holding its UTF-8 bytes, so the literals
      below are the literals of the script.  [str.strip] removes every Unicode
      white-space character; [str.lower] is modelled on Basic Latin and on the
      Latin-1 Supplement (the survey is in Spanish), other scripts are left as
      they are.
    - A Python [float] is a sign, a mantissa and a binary exponent; decimal
      text is rounded to binary64, to nearest, ties to even.  The decimal
      digits are those of Unicode 14.
    - A call that can raise returns a [result]; [main] threads the [world]
      (the spreadsheets on disk, the clock, the output file, the console). *)

From Stdlib Require Import ZArith Ascii String DecimalString Lia Bool.
From stdpp Require Import base option list gmap strings.

Local Open Scope Z_scope.

(** ** Exceptions and results *)

Inductive exn : Type :=
  | KeyError
  | AttributeError
  | ValueError
  | TypeError
  | OverflowError
  | FileNotFoundError.

Inductive result (A : Type) : Type :=
  | Returns (a : A)
  | Raises (e : exn).
Arguments Returns {A} a.
Arguments Raises {A} e.

#[global] Instance result_ret : MRet result := fun _ a => Returns a.
#[global] Instance result_bind : MBind result := fun _ _ f m =>
  match m with
  | Returns a => f a
  | Raises e => Raises e
  end.
#[global] Instance result_fmap : FMap result := fun _ _ f m =>
  match m with
  | Returns a => Returns (f a)
  | Raises e => Raises e
  end.

(** [try: ... except (ValueError, TypeError): ...] *)
Definition except_value_type {A} (body : result A) (handler : result A) : result A :=
  match body with
  | Raises ValueError | Raises TypeError => handler
  | other => other
  end.

(** [try: ... except Exception: ...]; every [exn] is an [Exception]. *)
Definition except_Exception {A} (body : result A) (handler : A) : A :=
  match body with
  | Returns a => a
  | Raises _ => handler
  end.

(** ** Python strings *)

Definition code (c : ascii) : Z := Z.of_N (N_of_ascii c).
Definition chr (z : Z) : ascii := ascii_of_N (Z.to_N z).

Definition in_range (lo hi z : Z) : bool := (lo <=? z) && (z <=? hi).

(** White space of one, two and three UTF-8 bytes: U+0009..000D, U+001C..001F,
    U+0020; U+0085, U+00A0; U+1680, U+2000..200A, U+2028, U+2029, U+202F,
    U+205F, U+3000. *)
Definition ws1 (a : ascii) : bool :=
  in_range 9 13 (code a) || in_range 28 32 (code a).
Definition ws2 (a b : ascii) : bool :=
  (code a =? 194) && ((code b =? 133) || (code b =? 160)).
Definition ws3 (a b c : ascii) : bool :=
  ((code a =? 225) && (code b =? 154) && (code c =? 128))
  || ((code a =? 226) && (code b =? 128)
      && (in_range 128 138 (code c) || in_range 168 169 (code c) || (code c =? 175)))
  || ((code a =? 226) && (code b =? 129) && (code c =? 159))
  || ((code a =? 227) && (code b =? 128) && (code c =? 128)).

(** Drops leading white space.  With [back] the string is read backwards (it
    is the reversal of the text), so the bytes of a character come last
    first. *)
Fixpoint drop_ws (back : bool) (s : string) : string :=
  match s with
  | String a s1 =>
      if ws1 a then drop_ws back s1
      else match s1 with
           | String b s2 =>
               if (if back then ws2 b a else ws2 a b) then drop_ws back s2
               else match s2 with
                    | String c s3 =>
                        if (if back then ws3 c b a else ws3 a b c)
                        then drop_ws back s3 else s
                    | EmptyString => s
                    end
           | EmptyString => s
           end
  | EmptyString => s
  end.

Definition lstrip (s : string) : string := drop_ws false s.
Definition rstrip (s : string) : string := String.rev (drop_ws true (String.rev s)).
(** [s.strip()] *)
Definition strip (s : string) : string := rstrip (lstrip s).

(** [s.lower()]: [prev] is the byte before, 195 announces a Latin-1 letter. *)
Definition lower_byte (prev a : ascii) : ascii :=
  if in_range 65 90 (code a) then chr (code a + 32)
  else if (code prev =? 195) && in_range 128 158 (code a) && negb (code a =? 151)
       then chr (code a + 32)
       else a.
Fixpoint lower_from (prev : ascii) (s : string) : string :=
  match s with
  | String a s1 => String (lower_byte prev a) (lower_from a s1)
  | EmptyString => EmptyString
  end.
Definition lower (s : string) : string := lower_from "000"%char s.

(** [s.replace(a, b)] for one-character [a] and [b]. *)
Fixpoint replace_char (a b : ascii) (s : string) : string :=
  match s with
  | String c s1 => String (if Ascii.eqb c a then b else c) (replace_char a b s1)
  | EmptyString => EmptyString
  end.

(** [s.split(sep)] for a one-character [sep]: never empty, [""] gives [[""]]. *)
Fixpoint split_char (sep : ascii) (s : string) : list string :=
  match s with
  | EmptyString => [EmptyString]
  | String c s1 =>
      if Ascii.eqb c sep then EmptyString :: split_char sep s1
      else match split_char sep s1 with
           | t :: ts => String c t :: ts
           | [] => [String c EmptyString]
           end
  end.

(** [sub in s] *)
Fixpoint contains (sub s : string) : bool :=
  String.prefix sub s
  || match s with
     | String _ s1 => contains sub s1
     | EmptyString => false
     end.

(** [sep.join(l)] *)
Fixpoint join (sep : string) (l : list string) : string :=
  match l with
  | [] => EmptyString
  | [x] => x
  | x :: rest => x +:+ sep +:+ join sep rest
  end.

(** The truth value of a string: [""] is falsy. *)
Definition truthy (s : string) : bool :=
  match s with EmptyString => false | _ => true end.

(** [filter(None, l)] on a list of [str | None]. *)
Definition filter_None (l : list (option string)) : list string :=
  omap (fun o => match o with Some s => if truthy s then Some s else None | None => None end) l.

(** [x or y] on [str | None], [y] a string. *)
Definition or_else (o : option string) (d : string) : string :=
  match o with Some s => if truthy s then s else d | None => d end.

(** ** Python numbers *)

(** [str(n)] for an [int]. *)
Definition str_of_int (z : Z) : string := NilZero.string_of_int (Z.to_int z).

(** A [float]: not-a-number, an infinity, or [(-1)^neg * m * 2^e]. *)
Inductive pyfloat : Type :=
  | FNan
  | FInf (neg : bool)
  | FFin (neg : bool) (m : N) (e : Z).
Arguments FFin neg m%_N e%_Z.

(** [n / d] rounded to an integer, to nearest, ties to even ([0 <= n], [0 < d]). *)
Definition rne_div (n d : Z) : Z :=
  let q := n / d in
  let r := n mod d in
  if 2 * r <? d then q
  else if d <? 2 * r then q + 1
  else if Z.even q then q else q + 1.

(** [n / d / 2^e] as a fraction. *)
Definition scale2 (n d e : Z) : Z * Z :=
  if 0 <=? e then (n, d * 2 ^ e) else (n * 2 ^ (- e), d).

(** The binary64 value nearest to [n / d] ([0 <= n], [0 < d]): 53 bits of
    mantissa, exponents from -1074 to 971, overflow to an infinity. *)
Definition b64_round (neg : bool) (n d : Z) : pyfloat :=
  if n =? 0 then FFin neg 0 (-1074)
  else
    let e0 := Z.log2 n - Z.log2 d - 52 in
    let '(n0, d0) := scale2 n d e0 in
    let e1 := if n0 / d0 <? 2 ^ 52 then e0 - 1 else e0 in
    let e := Z.max e1 (-1074) in
    let '(n1, d1) := scale2 n d e in
    let m := rne_div n1 d1 in
    let '(m, e) := if m =? 2 ^ 53 then (2 ^ 52, e + 1) else (m, e) in
    if 971 <? e then FInf neg else FFin neg (Z.to_N m) e.

(** The value [m * 2^e] as a fraction. *)
Definition ratio_of (m : N) (e : Z) : Z * Z :=
  if 0 <=? e then (Z.of_N m * 2 ^ e, 1) else (Z.of_N m, 2 ^ (- e)).

Definition is_digit (c : ascii) : bool := in_range 48 57 (code c).

(** The first code points of the runs of ten decimal digits beyond ASCII
    (Unicode 14: Arabic-Indic, Devanagari, fullwidth, ...). *)
Definition DIGIT_RUNS : list Z :=
  [
    1632; 1776; 1984; 2406; 2534; 2662; 2790; 2918;
    3046; 3174; 3302; 3430; 3558; 3664; 3792; 3872;
    4160; 4240; 6112; 6160; 6470; 6608; 6784; 6800;
    6992; 7088; 7232; 7248; 42528; 43216; 43264; 43472;
    43504; 43600; 44016; 65296; 66720; 68912; 69734; 69872;
    69942; 70096; 70384; 70736; 70864; 71248; 71360; 71472;
    71904; 72016; 72784; 73040; 73120; 92768; 92864; 93008;
    120782; 120792; 120802; 120812; 120822; 123200; 123632; 125264;
    130032 ].

(** The white space beyond ASCII, by code point. *)
Definition space_point (p : Z) : bool :=
  (p =? 133) || (p =? 160) || (p =? 5760) || in_range 8192 8202 p
  || in_range 8232 8233 p || (p =? 8239) || (p =? 8287) || (p =? 12288).

(** What [int] and [float] make of a character beyond ASCII before they read
    a text: a space for white space, the ASCII digit for a decimal digit, a
    question mark for anything else. *)
Definition plain_char (p : Z) : ascii :=
  if space_point p then " "%char
  else match List.find (fun r => (r <=? p) && (p <? r + 10)) DIGIT_RUNS with
       | Some r => chr (48 + (p - r))
       | None => "?"%char
       end.

(** The payload of a continuation byte. *)
Definition tail_bits (b : ascii) : Z := code b - 128.

(** The text with every character beyond ASCII replaced by its [plain_char];
    the characters are read from their UTF-8 bytes. *)
Fixpoint plain_text (s : string) : string :=
  match s with
  | EmptyString => EmptyString
  | String a s1 =>
      if code a <? 127 then String a (plain_text s1)
      else if code a <? 194 then String "?" (plain_text s1)
      else
        match s1 with
        | String b s2 =>
            if code a <? 224 then
              String (plain_char ((code a - 192) * 64 + tail_bits b)) (plain_text s2)
            else
              match s2 with
              | String c s3 =>
                  if code a <? 240 then
                    String (plain_char (((code a - 224) * 64 + tail_bits b) * 64
                                        + tail_bits c))
                           (plain_text s3)
                  else
                    match s3 with
                    | String d s4 =>
                        String (plain_char ((((code a - 240) * 64 + tail_bits b) * 64
                                             + tail_bits c) * 64 + tail_bits d))
                               (plain_text s4)
                    | EmptyString => "?"
                    end
              | EmptyString => "?"
              end
        | EmptyString => "?"
        end
  end.

(** The white space that [int] and [float] skip at both ends of the plain
    text: tab to carriage return, and the space. *)
Definition c_space (a : ascii) : bool := in_range 9 13 (code a) || (code a =? 32).
Fixpoint skip_spaces (s : string) : string :=
  match s with
  | String a s1 => if c_space a then skip_spaces s1 else s
  | EmptyString => s
  end.
Definition number_text (s : string) : string :=
  String.rev (skip_spaces (String.rev (skip_spaces (plain_text s)))).

(** Underscores may only stand between two digits; they are removed before
    the number is read. *)
Fixpoint drop_underscores (prev : ascii) (s : string) : option string :=
  match s with
  | EmptyString => if Ascii.eqb prev "_" then None else Some EmptyString
  | String c s1 =>
      if Ascii.eqb c "_" then
        if is_digit prev then drop_underscores c s1 else None
      else if Ascii.eqb prev "_" && negb (is_digit c) then None
      else String c <$> drop_underscores c s1
  end.

(** A leading sign. *)
Definition take_sign (s : string) : bool * string :=
  match s with
  | String "-" s1 => (true, s1)
  | String "+" s1 => (false, s1)
  | _ => (false, s)
  end.

(** The longest prefix of digits, as a number and a count, and what follows. *)
Fixpoint take_digits (acc : Z) (count : Z) (s : string) : Z * Z * string :=
  match s with
  | String c s1 =>
      if is_digit c then take_digits (10 * acc + (code c - 48)) (count + 1) s1
      else (acc, count, s)
  | EmptyString => (acc, count, s)
  end.

(** The exponent part: nothing, or [e] or [E], a sign and at least one digit. *)
Definition take_exponent (s : string) : option Z :=
  match s with
  | EmptyString => Some 0
  | String c s1 =>
      if Ascii.eqb c "e" || Ascii.eqb c "E" then
        let '(neg, s2) := take_sign s1 in
        match take_digits 0 0 s2 with
        | (x, k, EmptyString) =>
            if 0 <? k then Some (if neg then - x else x) else None
        | _ => None
        end
      else None
  end.

(** [float(s)] for a [str]. *)
Definition float_of_str (s : string) : result pyfloat :=
  match drop_underscores "000"%char (number_text s) with
  | None => Raises ValueError
  | Some t =>
      let '(neg, u) := take_sign t in
      let word := lower u in
      if String.eqb word "inf" || String.eqb word "infinity" then Returns (FInf neg)
      else if String.eqb word "nan" then Returns FNan
      else
        let '(ip, ik, u1) := take_digits 0 0 u in
        let '(fp, fk, u2) :=
          match u1 with
          | String "." u' => take_digits ip 0 u'
          | _ => (ip, 0, u1)
          end in
        if ik + fk =? 0 then Raises ValueError
        else match take_exponent u2 with
             | None => Raises ValueError
             | Some x =>
                 let p := x - fk in
                 Returns (if 0 <=? p then b64_round neg (fp * 10 ^ p) 1
                          else b64_round neg fp (10 ^ (- p)))
             end
  end.

(** [float(n)] for an [int]. *)
Definition float_of_int (z : Z) : result pyfloat :=
  match b64_round (z <? 0) (Z.abs z) 1 with
  | FInf _ => Raises OverflowError
  | f => Returns f
  end.

(** [int(x)] for a [float]: the integer part, towards zero. *)
Definition int_of_float (f : pyfloat) : result Z :=
  match f with
  | FNan => Raises ValueError
  | FInf _ => Raises OverflowError
  | FFin neg m e =>
      let '(n, d) := ratio_of m e in
      Returns (if neg then - (n / d) else n / d)
  end.

(** [int(s)] for a [str], base ten. *)
Definition int_of_str (s : string) : result Z :=
  match drop_underscores "000"%char (number_text s) with
  | None => Raises ValueError
  | Some t =>
      let '(neg, u) := take_sign t in
      match take_digits 0 0 u with
      | (x, k, EmptyString) =>
          if 0 <? k then Returns (if neg then - x else x) else Raises ValueError
      | _ => Raises ValueError
      end
  end.

(** The binary64 value of a finite float, with its mantissa normalised. *)
Definition canon (f : pyfloat) : pyfloat :=
  match f with
  | FFin neg m e => let '(n, d) := ratio_of m e in b64_round neg n d
  | _ => f
  end.

Definition pyfloat_eqb (f g : pyfloat) : bool :=
  match f, g with
  | FNan, FNan => true
  | FInf a, FInf b => Bool.eqb a b
  | FFin a m e, FFin b m' e' => Bool.eqb a b && (m =? m')%N && (e =? e')
  | _, _ => false
  end.

(** The number of decimal digits of a positive integer. *)
Definition len10 (n : Z) : Z := Z.of_nat (String.length (str_of_int n)).

(** [n / d / 10^q] rounded to an integer, and back. *)
Definition digits_at (n d q : Z) : Z :=
  if 0 <=? q then rne_div n (d * 10 ^ q) else rne_div (n * 10 ^ (- q)) d.
Definition digits_below (n d q : Z) : Z :=
  if 0 <=? q then n / (d * 10 ^ q) else (n * 10 ^ (- q)) / d.
Definition of_decimal (D q : Z) : pyfloat :=
  if 0 <=? q then b64_round false (D * 10 ^ q) 1 else b64_round false D (10 ^ (- q)).

(** The position [p] of the decimal point: [10^(p-1) <= n / d < 10^p]. *)
Definition decimal_point (n d : Z) : Z :=
  let k := len10 n - len10 d in
  if (if 0 <=? k then d * 10 ^ k <=? n else d <=? n * 10 ^ (- k)) then k + 1 else k.

(** The shortest digit string that reads back as [x = n / d], searched from
    [k] digits upwards; seventeen digits always do.  With [k] digits the
    nearest decimal is tried first, then its neighbour on the other side of
    [x] (next to a power of two only that one may read back). *)
Fixpoint shortest_digits (fuel : nat) (k : Z) (x : pyfloat) (n d p : Z) : Z :=
  let D := digits_at n d (p - k) in
  match fuel with
  | O => D
  | S fuel' =>
      let below := digits_below n d (p - k) in
      let other := if D =? below then below + 1 else below in
      if pyfloat_eqb (of_decimal D (p - k)) x then D * 10 ^ (17 - k)
      else if pyfloat_eqb (of_decimal other (p - k)) x then other * 10 ^ (17 - k)
      else shortest_digits fuel' (k + 1) x n d p
  end.

Fixpoint zeros (n : nat) : string :=
  match n with O => EmptyString | S n' => String "0" (zeros n') end.

Definition drop_trailing_zeros (s : string) : string :=
  let fix go (r : string) : string :=
    match r with
    | String "0" r' => go r'
    | _ => r
    end in
  String.rev (go (String.rev s)).

Definition substr (from len : Z) (s : string) : string :=
  String.substring (Z.to_nat from) (Z.to_nat len) s.

(** [repr] of a positive finite binary64 value [n / d]: the digits [ds] and
    the decimal point [p] laid out as Python does, in positional notation
    when [-4 < p <= 16] and in exponent notation otherwise. *)
Definition repr_positive (x : pyfloat) (n d : Z) : string :=
  let p0 := decimal_point n d in
  let D := shortest_digits 16 1 x n d p0 in
  let all := str_of_int D in
  let p := p0 + (Z.of_nat (String.length all) - 17) in
  let ds := drop_trailing_zeros all in
  let k := Z.of_nat (String.length ds) in
  if (-4 <? p) && (p <=? 16) then
    if p <=? 0 then "0." +:+ zeros (Z.to_nat (- p)) +:+ ds
    else if k <=? p then ds +:+ zeros (Z.to_nat (p - k)) +:+ ".0"
    else substr 0 p ds +:+ "." +:+ substr p (k - p) ds
  else
    let x10 := p - 1 in
    let ex := str_of_int (Z.abs x10) in
    substr 0 1 ds +:+ (if 1 <? k then "." +:+ substr 1 (k - 1) ds else "")
      +:+ "e" +:+ (if x10 <? 0 then "-" else "+")
      +:+ (if Z.abs x10 <? 10 then "0" else "") +:+ ex.

(** [str(x)] for a [float]. *)
Definition repr_float (f : pyfloat) : string :=
  match canon f with
  | FNan => "nan"
  | FInf neg => if neg then "-inf" else "inf"
  | FFin neg m e =>
      (if neg then "-" else "")
      +:+ (if (m =? 0)%N then "0.0"
           else let '(n, d) := ratio_of m e in repr_positive (FFin false m e) n d)
  end.

(** ** Dates *)

(** A naive [datetime] (a pandas [Timestamp] is one). *)
Record datetime : Type := {
  year : Z; month : Z; day : Z;
  hour : Z; minute : Z; second : Z; microsecond : Z
}.

(** [n] written with at least [width] digits. *)
Definition pad (width : nat) (n : Z) : string :=
  let s := str_of_int n in
  zeros (width - String.length s) +:+ s.

(** [d.isoformat(sep)]: the microseconds are written only when not zero. *)
Definition isoformat_sep (sep : string) (d : datetime) : string :=
  pad 4 (year d) +:+ "-" +:+ pad 2 (month d) +:+ "-" +:+ pad 2 (day d) +:+ sep
  +:+ pad 2 (hour d) +:+ ":" +:+ pad 2 (minute d) +:+ ":" +:+ pad 2 (second d)
  +:+ (if microsecond d =? 0 then "" else "." +:+ pad 6 (microsecond d)).
Definition isoformat (d : datetime) : string := isoformat_sep "T" d.

(** ** Cells *)

(** What a cell of a loaded spreadsheet holds.  A blank cell is the float
    not-a-number; [None] is what [row.get] gives for a column that is not
    there, [NaT] a blank date. *)
Inductive cell : Type :=
  | CNone
  | CNaT
  | CFloat (f : pyfloat)
  | CInt (n : Z)
  | CBool (b : bool)
  | CStr (s : string)
  | CDate (d : datetime).

Abbreviation CNaN := (CFloat FNan).

(** [pd.isna(c)] and [pd.notna(c)] *)
Definition isna (c : cell) : bool :=
  match c with
  | CNone | CNaT | CFloat FNan => true
  | _ => false
  end.
Definition notna (c : cell) : bool := negb (isna c).

(** [str(c)] *)
Definition py_str (c : cell) : string :=
  match c with
  | CNone => "None"
  | CNaT => "NaT"
  | CFloat f => repr_float f
  | CInt n => str_of_int n
  | CBool b => if b then "True" else "False"
  | CStr s => s
  | CDate d => isoformat_sep " " d
  end.

(** [float(c)] *)
Definition py_float (c : cell) : result pyfloat :=
  match c with
  | CFloat f => Returns f
  | CInt n => float_of_int n
  | CBool b => Returns (if b then FFin false 1 0 else FFin false 0 0)
  | CStr s => float_of_str s
  | CNone | CNaT | CDate _ => Raises TypeError
  end.

(** [int(c)] *)
Definition py_int (c : cell) : result Z :=
  match c with
  | CFloat f => int_of_float f
  | CInt n => Returns n
  | CBool b => Returns (if b then 1 else 0)
  | CStr s => int_of_str s
  | CNone | CNaT | CDate _ => Raises TypeError
  end.

(** ** The field normalisers *)

Definition parse_skills (raw : cell) : list string :=
  if isna raw then []
  else
    omap (fun s => if truthy (strip s) then Some (strip s) else None)
         (split_char "," (replace_char ";" "," (py_str raw))).

Definition normalize_academic_level (raw : cell) : option string :=
  if isna raw then None
  else
    let val := strip (lower (py_str raw)) in
    if contains "licenciatura" val then Some "licenciatura"
    else if contains "posgrado" val || contains "maestr" val || contains "doctor" val
         then Some "posgrado"
    else if contains "curso" val || contains "actualización" val then Some "curso"
    else None.

Definition safe_str (val : cell) : option string :=
  if isna val then None
  else let s := strip (py_str val) in if truthy s then Some s else None.

Definition normalize_generation (raw : cell) : result (option string) :=
  if isna raw then Returns None
  else
    except_value_type
      (f ← py_float raw; n ← int_of_float f; mret (Some (str_of_int n)))
      (Returns (Some (strip (py_str raw)))).

(** ** Data frames *)

(** Only a column of dtype [object] has the [.str] accessor. *)
Inductive dtype : Type := DObject | DOther.

Record Series : Type := { s_dtype : dtype; s_values : list cell }.

(** A loaded sheet: its columns with their dtypes, and its rows in order. *)
Record DataFrame : Type := {
  dtypes : gmap string dtype;
  rows : list (gmap string cell)
}.

(** [df[c]] *)
Definition df_getitem (df : DataFrame) (c : string) : result Series :=
  match dtypes df !! c with
  | None => Raises KeyError
  | Some t => Returns {| s_dtype := t; s_values := (fun r => default CNaN (r !! c)) <$> rows df |}
  end.

(** [df[c] = s] *)
Definition df_setitem (df : DataFrame) (c : string) (s : Series) : DataFrame :=
  {| dtypes := <[c := s_dtype s]> (dtypes df);
     rows := zip_with (fun r v => <[c := v]> r) (rows df) (s_values s) |}.

(** [s.str.strip()] and [s.str.lower()]: anything but a string becomes NaN. *)
Definition str_method (f : string -> string) (s : Series) : result Series :=
  match s_dtype s with
  | DOther => Raises AttributeError
  | DObject =>
      Returns {| s_dtype := DObject;
                 s_values := (fun c => match c with CStr x => CStr (f x) | _ => CNaN end)
                             <$> s_values s |}
  end.

(** [row[c]] and [row.get(c)] *)
Definition row_getitem (row : gmap string cell) (c : string) : result cell :=
  match row !! c with
  | Some v => Returns v
  | None => Raises KeyError
  end.
Definition row_get (row : gmap string cell) (c : string) : cell :=
  default CNone (row !! c).

(** [c.strip()] on a cell: only a [str] has the method. *)
Definition cell_strip (c : cell) : result string :=
  match c with
  | CStr s => Returns (strip s)
  | _ => Raises AttributeError
  end.

(** ** The script *)

(** Emails to exclude (test accounts) *)
Definition EXCLUDED_EMAILS : gset string := {[ "prueba@secid.mx"; "prueba_2@secid.mx" ]}.

(** [c in EXCLUDED_EMAILS] for a cell of the normalised column. *)
Definition excluded (c : cell) : bool :=
  match c with
  | CStr s => bool_decide (s ∈ EXCLUDED_EMAILS)
  | _ => false
  end.

Definition COL_EMAIL : string := "Dirección de correo electrónico".

(** [df["email_norm"] = df[COL_EMAIL].str.strip().str.lower()] *)
Definition add_email_norm (df : DataFrame) : result DataFrame :=
  col ← df_getitem df COL_EMAIL;
  stripped ← str_method strip col;
  lowered ← str_method lower stripped;
  mret (df_setitem df "email_norm" lowered).

(** [df[~df["email_norm"].isin(EXCLUDED_EMAILS)]] *)
Definition drop_excluded (df : DataFrame) : DataFrame :=
  {| dtypes := dtypes df;
     rows := List.filter (fun r => negb (excluded (default CNaN (r !! "email_norm")))) (rows df) |}.

(** The key of [account_map] for a cell of the normalised column: its text,
    or [None] for the NaN of a row without an e-mail. *)
Definition key_of (c : cell) : option string :=
  match c with CStr s => Some s | _ => None end.

(** One turn of the loop over the account rows. *)
Definition account_step (account_map : gmap (option string) string)
    (row : gmap string cell) : result (gmap (option string) string) :=
  email ← row_getitem row "email_norm";
  let nc := row_get row "Numero de cuenta" in
  if notna nc then
    n ← py_int nc;
    mret (<[key_of email := str_of_int n]> account_map)
  else mret account_map.

Fixpoint build_account_map (account_map : gmap (option string) string)
    (l : list (gmap string cell)) : result (gmap (option string) string) :=
  match l with
  | [] => Returns account_map
  | row :: rest => m ← account_step account_map row; build_account_map m rest
  end.

Record record : Type := {
  email : string;
  displayName : string;
  firstName : option string;
  lastName : string;
  role : string;
  registrationType : string;
  verificationStatus : string;
  lifecycleStatus : string;
  numeroCuenta : option string;
  academicLevel : option string;
  campus : option string;
  generation : option string;
  gender : option string;
  company : option string;
  position : option string;
  professionalStatus : option string;
  maxDegree : option string;
  maxDegreeInstitution : option string;
  maxDegreeProgram : option string;
  skills : list string;
  experienceLevel : option string;
  currentlyStudying : option string;
  linkedin : option string;
  instagram : option string;
  twitter : option string;
  facebook : option string;
  phone : option string;
  cvUrl : option string;
  cvHighlights : option string;
  birthDate : option string;
  registeredAt : option string;
  whatsappConsent : option string;
  objectives : option string;
  expectations : option string;
  priorities : list (string * string);
  comments : option string
}.

Record output : Type := {
  generatedAt : string;
  totalMembers : nat;
  memberCount : nat;
  collaboratorCount : nat;
  excludedEmails : list string;
  members : list record
}.

(** The machine the script runs on.  The hash seed of the process decides in
    which order a set of strings is gone through. *)
Record world : Type := {
  spreadsheets : gmap string DataFrame;
  clock : datetime;
  hash_seed : nat;
  json_files : gmap string output;
  stdout : list string
}.

(** [list(s)] for a set of strings: its elements, in one order or the other. *)
Definition set_list (seed : nat) (s : gset string) : list string :=
  if Nat.even seed then elements s else reverse (elements s).

(** [pd.read_excel(path)] *)
Definition read_excel (w : world) (path : string) : result DataFrame :=
  match spreadsheets w !! path with
  | Some df => Returns df
  | None => Raises FileNotFoundError
  end.

(** [json.dump(doc, open(path, "w"))] and [print(line)] *)
Definition write_json (path : string) (doc : output) (w : world) : world :=
  {| spreadsheets := spreadsheets w; clock := clock w; hash_seed := hash_seed w;
     json_files := <[path := doc]> (json_files w); stdout := stdout w |}.
Definition print (line : string) (w : world) : world :=
  {| spreadsheets := spreadsheets w; clock := clock w; hash_seed := hash_seed w;
     json_files := json_files w; stdout := stdout w ++ [line] |}.

(** The condition of the classification:
    [is_member or "miembro" in tipo.lower() or "egresado" in tipo.lower()]. *)
Definition is_member_row (row : gmap string cell) : bool :=
  let is_member := notna (row_get row "Miembro") in
  let tipo := or_else (safe_str (row_get row "Tipo de registro")) "" in
  is_member || contains "miembro" (lower tipo) || contains "egresado" (lower tipo).

Definition PRIORITY_PREFIX : string :=
  "Selecciona el nivel de prioridad que le asignas a cada una de las siguientes iniciativas: ".

Section Script.

(** [pd.Timestamp(val).isoformat()] for a value that is not a date already:
    the date-text parser of pandas, which is not part of the script. *)
Variable Timestamp_isoformat : cell -> result string.

Definition to_iso (val : cell) : option string :=
  if isna val then None
  else match val with
       | CDate d => Some (isoformat d)
       | _ => except_Exception (Some <$> Timestamp_isoformat val) None
       end.

(** The body of the loop over the member rows. *)
Definition build_record (account_map : gmap (option string) string)
    (row : gmap string cell) : result record :=
  raw_email ← row_getitem row "Dirección de correo electrónico";
  email ← cell_strip raw_email;
  let email_lower := lower email in
  first_name ← safe_str <$> row_getitem row "Nombre(s)";
  last_paterno ← safe_str <$> row_getitem row "Apellido Paterno";
  last_materno ← safe_str <$> row_getitem row "Apellido Materno";
  let last_name := join " " (filter_None [last_paterno; last_materno]) in
  let display_name := join " " (filter_None [first_name; last_paterno]) in
  let member := is_member_row row in
  let role := if member then "member" else "collaborator" in
  let lifecycle_status := if member then "active" else "collaborator" in
  let registration_type := if member then "member" else "collaborator" in
  let verification_status := if member then "approved" else "none" in
  generation ← normalize_generation (row_get row "Elige la generación a la que perteneces.");
  let priority (k c : string) : option (string * string) :=
    (fun v => (k, v)) <$> safe_str (row_get row (PRIORITY_PREFIX +:+ c)) in
  mret {|
    email := email;
    displayName := if truthy display_name then display_name
                   else hd "" (split_char "@" email);
    firstName := first_name;
    lastName := last_name;
    role := role;
    registrationType := registration_type;
    verificationStatus := verification_status;
    lifecycleStatus := lifecycle_status;
    numeroCuenta := account_map !! Some email_lower;
    academicLevel := normalize_academic_level
      (row_get row "Indica el nivel académico en el que cursaste estudios de ciencia de datos en la UNAM.");
    campus := safe_str (row_get row "Indica tu sede de estudios");
    generation := generation;
    gender := safe_str (row_get row "Indica el género con el que te identificas.");
    company := safe_str (row_get row "Última empresa o institución en la que laboras / laboraste");
    position := safe_str (row_get row "Puesto de trabajo");
    professionalStatus := safe_str (row_get row "Situación profesional");
    maxDegree := safe_str (row_get row "Máximo grado de estudios");
    maxDegreeInstitution := safe_str
      (row_get row "Institución en la que cursaste el máximo grado de estudios");
    maxDegreeProgram := safe_str
      (row_get row "Nombre del programa del máximo grado de estudios");
    skills := parse_skills (row_get row "Intereses / área de expertise");
    experienceLevel := safe_str
      (row_get row "Indica el nivel de experiencia que tienes en el área de ciencia de datos");
    currentlyStudying := safe_str (row_get row "¿Estudias actualmente?");
    linkedin := safe_str (row_get row "LinkedIn");
    instagram := safe_str (row_get row "Instagram");
    twitter := safe_str (row_get row "Twitter");
    facebook := safe_str (row_get row "Facebook");
    phone := safe_str (row_get row "Teléfono");
    cvUrl := safe_str (row_get row "Currículum vitae");
    cvHighlights := safe_str (row_get row "Resumé (CV highlights)");
    birthDate := to_iso (row_get row "Fecha de Nacimiento");
    registeredAt := to_iso (row_get row "Marca temporal");
    whatsappConsent := safe_str
      (row_get row "¿Autorizas que añadamos tu número de teléfono a la comunidad de WhatsApp de egresados de la SECiD?");
    objectives := safe_str
      (row_get row "¿Cuáles son los principales objetivos de tu acercamiento a SECiD?");
    expectations := safe_str
      (row_get row "Describe a mayor detalle cuáles son tus expectativas al colaborar con SECiD.");
    priorities := omap id
      [ priority "bolsaTrabajo" "[Bolsa Trabajo]";
        priority "hackatones" "[Hackatones]";
        priority "cursosEspecializados" "[Cursos especializados]";
        priority "seminarios" "[Seminarios]";
        priority "asesorias" "[Asesorías]";
        priority "mentoria" "[Mentoría]";
        priority "newsletter" "[Newsletter]" ];
    comments := safe_str
      (row_get row "Comparte tus recomendaciones adicionales, comentarios, y sugerencias sobre cómo podríamos colaborar y mejorar.")
  |}.

(** The loop over the member rows: [records.append(record)] in row order. *)
Fixpoint build_records (account_map : gmap (option string) string)
    (l : list (gmap string cell)) : result (list record) :=
  match l with
  | [] => Returns []
  | row :: rest =>
      r ← build_record account_map row;
      rs ← build_records account_map rest;
      mret (r :: rs)
  end.

(** [sum(1 for r in records if r["role"] == v)] *)
Definition count_role (v : string) (records : list record) : nat :=
  length (List.filter (fun r => String.eqb (role r) v) records).

(** The document written at the end, from the clock, the excluded e-mails as
    [list(EXCLUDED_EMAILS)] gives them, and the records. *)
Definition make_output (now : datetime) (excluded_list : list string)
    (records : list record) : output :=
  {| generatedAt := isoformat now;
     totalMembers := length records;
     memberCount := count_role "member" records;
     collaboratorCount := count_role "collaborator" records;
     excludedEmails := excluded_list;
     members := records |}.

Definition str_of_nat (n : nat) : string := str_of_int (Z.of_nat n).

(** Everything before the file is written: nothing here touches the world. *)
Definition prepare (w : world) : result (list record) :=
  df_members ← read_excel w "tmp/members.xlsx";
  df_accounts ← read_excel w "tmp/members-accounts.xlsx";
  df_members ← add_email_norm df_members;
  df_accounts ← add_email_norm df_accounts;
  let df_members := drop_excluded df_members in
  account_map ← build_account_map ∅ (rows df_accounts);
  build_records account_map (rows df_members).

Definition main (w : world) : result unit * world :=
  match prepare w with
  | Raises e => (Raises e, w)
  | Returns records =>
      let excluded_list := set_list (hash_seed w) EXCLUDED_EMAILS in
      let doc := make_output (clock w) excluded_list records in
      let w := write_json "tmp/members-import.json" doc w in
      let w := print ("Wrote " +:+ str_of_nat (length records)
                      +:+ " records to tmp/members-import.json") w in
      let w := print ("  Members: " +:+ str_of_nat (memberCount doc)) w in
      let w := print ("  Collaborators: " +:+ str_of_nat (collaboratorCount doc)) w in
      let w := print ("  With account numbers: "
                      +:+ str_of_nat (length (List.filter
                            (fun r => truthy (default "" (numeroCuenta r))) records))) w in
      let w := print ("  Excluded: {"
                      +:+ join ", " ((fun s => "'" +:+ s +:+ "'") <$> excluded_list)
                      +:+ "}") w in
      (Returns tt, w)
  end.

End Script.

(** ** The vocabulary of the specification *)

(** Splitting a text at every character that [sep] accepts. *)
Fixpoint split_on (sep : ascii -> bool) (s : string) : list string :=
  match s with
  | EmptyString => [EmptyString]
  | String c s1 =>
      if sep c then EmptyString :: split_on sep s1
      else match split_on sep s1 with
           | t :: ts => String c t :: ts
           | [] => [String c EmptyString]
           end
  end.

Definition comma_or_semicolon (c : ascii) : bool :=
  Ascii.eqb c "," || Ascii.eqb c ";".

(** The skills of a cell as the specification words them: nothing for a blank
    cell; otherwise the text is split on commas and semicolons, each token is
    trimmed, and the tokens left empty are dropped. *)
Definition parseSkills (raw : cell) : list string :=
  if isna raw then []
  else List.filter truthy (strip <$> split_on comma_or_semicolon (py_str raw)).

(** The integer part of [(-1)^neg * m * 2^e], rounding towards zero. *)
Definition integer_part (neg : bool) (m : N) (e : Z) : Z :=
  let '(n, d) := ratio_of m e in Z.quot (if neg then - n else n) d.

(** The normalised e-mail of a row of a sheet as loaded: trimmed, lowercased;
    nothing when the cell holds no text. *)
Definition normalized_email (row : gmap string cell) : option string :=
  match row !! COL_EMAIL with
  | Some (CStr s) => Some (lower (strip s))
  | _ => None
  end.

(** The integer a cell stands for: an integer itself, the integer part of a
    finite float, 0 or 1 for a truth value, the number a text writes in
    decimal. *)
Definition integer_of_cell (c : cell) : option Z :=
  match c with
  | CInt n => Some n
  | CFloat (FFin neg m e) => Some (integer_part neg m e)
  | CBool b => Some (if b then 1 else 0)
  | CStr s => match int_of_str s with Returns n => Some n | Raises _ => None end
  | _ => None
  end.

(** The account number the specification gives a normalised e-mail: that of
    the last row with this e-mail and a non-blank account cell, as the text of
    its integer value. *)
Definition has_account (e : string) (row : gmap string cell) : bool :=
  bool_decide (normalized_email row = Some e) && notna (row_get row "Numero de cuenta").
Definition account_of (e : string) (l : list (gmap string cell)) : option string :=
  match last (List.filter (has_account e) l) with
  | Some row => str_of_int <$> integer_of_cell (row_get row "Numero de cuenta")
  | None => None
  end.

(** A row the joiner can take: its account cell is blank or converts to an
    integer. *)
Definition coercible (row : gmap string cell) : bool :=
  let nc := row_get row "Numero de cuenta" in
  isna nc || match py_int nc with Returns _ => true | Raises _ => false end.

(** The part of an address before its first [@]. *)
Fixpoint local_part (s : string) : string :=
  match s with
  | String c s1 => if Ascii.eqb c "@" then EmptyString else String c (local_part s1)
  | EmptyString => EmptyString
  end.

(** Two optional values joined by a space, the absent ones left out. *)
Definition joined (a b : option string) : string :=
  match a, b with
  | Some x, Some y => x +:+ " " +:+ y
  | Some x, None => x
  | None, Some y => y
  | None, None => EmptyString
  end.

(** The four classification fields of a record, and their two values. *)
Definition classification (r : record) : string * string * string * string :=
  (role r, registrationType r, verificationStatus r, lifecycleStatus r).
Definition MEMBER : string * string * string * string :=
  ("member", "member", "approved", "active").
Definition COLLABORATOR : string * string * string * string :=
  ("collaborator", "collaborator", "none", "collaborator").

(** The text of a cell as the specification has it: absent for a blank cell
    and for one of white space only, the trimmed text of the cell otherwise. *)
Definition cell_text (c : cell) : option string :=
  if isna c then None
  else match strip (py_str c) with
       | EmptyString => None
       | String a s => Some (String a s)
       end.

(** The rule of the specification: the membership flag is there, or the
    registration type (trimmed, nothing when blank), lowercased, mentions
    "miembro" or "egresado". *)
Definition classified_member (row : gmap string cell) : bool :=
  let text := default "" (cell_text (row_get row "Tipo de registro")) in
  notna (row_get row "Miembro")
  || contains "miembro" (lower text) || contains "egresado" (lower text).

(** [lower(email) in EXCLUDED_EMAILS] for the e-mail of a record. *)
Definition is_excluded (e : string) : bool :=
  bool_decide (lower e ∈ EXCLUDED_EMAILS).

(** The rows the specification keeps: those whose normalised e-mail is not
    excluded, in their order. *)
Definition kept (row : gmap string cell) : bool :=
  match normalized_email row with
  | Some e => negb (bool_decide (e ∈ EXCLUDED_EMAILS))
  | None => true
  end.

(** What the loader adds to a row: the column of the normalised e-mail. *)
Definition with_email_norm (row : gmap string cell) : gmap string cell :=
  <["email_norm" := match normalized_email row with
                    | Some e => CStr e
                    | None => CNaN
                    end]> row.

Definition OUTPUT_PATH : string := "tmp/members-import.json".

(** ** The document as JSON *)

(** What [json.dump] is given: [None] is null, a [str] a string, an [int] a
    number, a list an array, a dict an object with its keys in order. *)
Unset Elimination Schemes.
Inductive json : Type :=
  | JNull
  | JString (s : string)
  | JNumber (n : Z)
  | JArray (items : list json)
  | JObject (fields : list (string * json)).
Set Elimination Schemes.

Definition json_opt (o : option string) : json :=
  match o with Some s => JString s | None => JNull end.

(** The value of a key of an object. *)
Definition json_get (k : string) (j : json) : option json :=
  match j with
  | JObject fields => snd <$> List.find (fun kv => String.eqb (fst kv) k) fields
  | _ => None
  end.

Definition record_fields (r : record) : list (string * json) :=
  [ ("email", JString (email r));
    ("displayName", JString (displayName r));
    ("firstName", json_opt (firstName r));
    ("lastName", JString (lastName r));
    ("role", JString (role r));
    ("registrationType", JString (registrationType r));
    ("verificationStatus", JString (verificationStatus r));
    ("lifecycleStatus", JString (lifecycleStatus r));
    ("numeroCuenta", json_opt (numeroCuenta r));
    ("academicLevel", json_opt (academicLevel r));
    ("campus", json_opt (campus r));
    ("generation", json_opt (generation r));
    ("gender", json_opt (gender r));
    ("company", json_opt (company r));
    ("position", json_opt (position r));
    ("professionalStatus", json_opt (professionalStatus r));
    ("maxDegree", json_opt (maxDegree r));
    ("maxDegreeInstitution", json_opt (maxDegreeInstitution r));
    ("maxDegreeProgram", json_opt (maxDegreeProgram r));
    ("skills", JArray (JString <$> skills r));
    ("experienceLevel", json_opt (experienceLevel r));
    ("currentlyStudying", json_opt (currentlyStudying r));
    ("linkedin", json_opt (linkedin r));
    ("instagram", json_opt (instagram r));
    ("twitter", json_opt (twitter r));
    ("facebook", json_opt (facebook r));
    ("phone", json_opt (phone r));
    ("cvUrl", json_opt (cvUrl r));
    ("cvHighlights", json_opt (cvHighlights r));
    ("birthDate", json_opt (birthDate r));
    ("registeredAt", json_opt (registeredAt r));
    ("whatsappConsent", json_opt (whatsappConsent r));
    ("objectives", json_opt (objectives r));
    ("expectations", json_opt (expectations r));
    ("priorities", JObject ((fun kv => (fst kv, JString (snd kv))) <$> priorities r));
    ("comments", json_opt (comments r)) ].

(** The [record] dict, and the [output] dict, as [json.dump] sees them. *)
Definition record_json (r : record) : json := JObject (record_fields r).
Definition output_json (doc : output) : json :=
  JObject
    [ ("generatedAt", JString (generatedAt doc));
      ("totalMembers", JNumber (Z.of_nat (totalMembers doc)));
      ("memberCount", JNumber (Z.of_nat (memberCount doc)));
      ("collaboratorCount", JNumber (Z.of_nat (collaboratorCount doc)));
      ("excludedEmails", JArray (JString <$> excludedEmails doc));
      ("members", JArray (record_json <$> members doc)) ].

(** The fields of a record that come from one cell and are absent when the
    cell is blank: the key of each and its column. *)
Definition NULLABLE_COLUMNS : list (string * string) :=
  [ ("academicLevel",
     "Indica el nivel académico en el que cursaste estudios de ciencia de datos en la UNAM.");
    ("campus", "Indica tu sede de estudios");
    ("generation", "Elige la generación a la que perteneces.");
    ("gender", "Indica el género con el que te identificas.");
    ("company", "Última empresa o institución en la que laboras / laboraste");
    ("position", "Puesto de trabajo");
    ("professionalStatus", "Situación profesional");
    ("maxDegree", "Máximo grado de estudios");
    ("maxDegreeInstitution",
     "Institución en la que cursaste el máximo grado de estudios");
    ("maxDegreeProgram", "Nombre del programa del máximo grado de estudios");
    ("experienceLevel",
     "Indica el nivel de experiencia que tienes en el área de ciencia de datos");
    ("currentlyStudying", "¿Estudias actualmente?");
    ("linkedin", "LinkedIn");
    ("instagram", "Instagram");
    ("twitter", "Twitter");
    ("facebook", "Facebook");
    ("phone", "Teléfono");
    ("cvUrl", "Currículum vitae");
    ("cvHighlights", "Resumé (CV highlights)");
    ("birthDate", "Fecha de Nacimiento");
    ("registeredAt", "Marca temporal");
    ("whatsappConsent",
     "¿Autorizas que añadamos tu número de teléfono a la comunidad de WhatsApp de egresados de la SECiD?");
    ("objectives", "¿Cuáles son los principales objetivos de tu acercamiento a SECiD?");
    ("expectations",
     "Describe a mayor detalle cuáles son tus expectativas al colaborar con SECiD.");
    ("comments",
     "Comparte tus recomendaciones adicionales, comentarios, y sugerencias sobre cómo podríamos colaborar y mejorar.") ].

Definition COL_SKILLS : string := "Intereses / área de expertise".

(** ** A small run, for the examples *)

Definition member_row (e n p m flag tipo : cell) : gmap string cell :=
  list_to_map
    [ (COL_EMAIL, e); ("Nombre(s)", n); ("Apellido Paterno", p);
      ("Apellido Materno", m); ("Miembro", flag); ("Tipo de registro", tipo) ].

Definition account_row (e nc : cell) : gmap string cell :=
  list_to_map [ (COL_EMAIL, e); ("Numero de cuenta", nc) ].

Definition member_columns : gmap string dtype :=
  list_to_map
    [ (COL_EMAIL, DObject); ("Nombre(s)", DObject); ("Apellido Paterno", DObject);
      ("Apellido Materno", DObject); ("Miembro", DOther); ("Tipo de registro", DObject) ].

Definition account_columns : gmap string dtype :=
  list_to_map [ (COL_EMAIL, DObject); ("Numero de cuenta", DObject) ].

Definition jdoe_row : gmap string cell :=
  member_row (CStr "jdoe@example.com") CNaN CNaN CNaN CNaN (CStr "Egresado").

Definition sample_members : DataFrame :=
  {| dtypes := member_columns;
     rows :=
       [ jdoe_row;
         member_row (CStr " Prueba@SECiD.mx") (CStr "Cuenta") (CStr "De Prueba") CNaN CNaN CNaN;
         member_row (CStr "Ana@x.mx ") (CStr " Ana ") (CStr "Pérez") (CStr "López")
                    CNaN (CStr "Colaborador") ] |}.

Definition sample_accounts : DataFrame :=
  {| dtypes := account_columns;
     rows :=
       [ account_row (CStr "JDoe@example.com") (CFloat (FFin false 316012345 0));
         account_row (CStr "ana@x.mx") CNaN;
         account_row (CStr "jdoe@example.com ") (CInt 42) ] |}.

(** The same accounts with one account number typed as text. *)
Definition broken_accounts : DataFrame :=
  {| dtypes := account_columns;
     rows := rows sample_accounts ++ [ account_row (CStr "ana@x.mx") (CStr "sin cuenta") ] |}.

Definition sample_clock : datetime :=
  {| year := 2025; month := 3; day := 4; hour := 5; minute := 6; second := 7;
     microsecond := 0 |}.

Definition world_with (accounts : DataFrame) : world :=
  {| spreadsheets :=
       list_to_map [ ("tmp/members.xlsx", sample_members);
                     ("tmp/members-accounts.xlsx", accounts) ];
     clock := sample_clock;
     hash_seed := 0;
     json_files := ∅;
     stdout := [] |}.

(** A date parser that understands nothing. *)
Definition no_dates (c : cell) : result string := Raises ValueError.

Definition sample_world : world := world_with sample_accounts.
Definition broken_world : world := world_with broken_accounts.

(** The document of the run on the sample world. *)
Definition sample_doc : output :=
  make_output sample_clock (elements EXCLUDED_EMAILS)
    (match prepare no_dates sample_world with Returns l => l | Raises _ => [] end).

(** ** Further vocabulary *)

(** The seven initiatives: the key of each in [priorities] and the end of the
    name of its column. *)
Definition PRIORITY_COLUMNS : list (string * string) :=
  [ ("bolsaTrabajo", "[Bolsa Trabajo]");
    ("hackatones", "[Hackatones]");
    ("cursosEspecializados", "[Cursos especializados]");
    ("seminarios", "[Seminarios]");
    ("asesorias", "[Asesorías]");
    ("mentoria", "[Mentoría]");
    ("newsletter", "[Newsletter]") ].

Definition COL_GENERATION : string := "Elige la generación a la que perteneces.".

(** The columns a member row is read from with [row[...]]. *)
Definition REQUIRED_COLUMNS : list string :=
  [ COL_EMAIL; "Nombre(s)"; "Apellido Paterno"; "Apellido Materno" ].

(** A member row the record builder can take: its e-mail is a text, the three
    name columns are there, and the generation does not overflow. *)
Definition member_row_ok (row : gmap string cell) : bool :=
  match row !! COL_EMAIL with Some (CStr _) => true | _ => false end
  && bool_decide (is_Some (row !! "Nombre(s)"))
  && bool_decide (is_Some (row !! "Apellido Paterno"))
  && bool_decide (is_Some (row !! "Apellido Materno"))
  && match normalize_generation (row_get row COL_GENERATION) with
     | Returns _ => true
     | Raises _ => false
     end.

(** A skill as [parse_skills] gives it: trimmed, not empty, without comma or
    semicolon. *)
Definition skill_ok (t : string) : bool :=
  String.eqb (strip t) t && truthy t
  && forallb (fun c => negb (comma_or_semicolon c)) (list_ascii_of_string t).

(** The members of the sample with one more row, whose e-mail cell is blank. *)
Definition members_with_blank_email : DataFrame :=
  {| dtypes := member_columns;
     rows := rows sample_members
             ++ [ member_row CNaN (CStr "Sin") (CStr "Correo") CNaN CNaN CNaN ] |}.

Definition blank_email_world : world :=
  {| spreadsheets :=
       list_to_map [ ("tmp/members.xlsx", members_with_blank_email);
                     ("tmp/members-accounts.xlsx", sample_accounts) ];
     clock := sample_clock;
     hash_seed := 0;
     json_files := ∅;
     stdout := [] |}.

(** A machine without the sheets. *)
Definition bare_world : world :=
  {| spreadsheets := ∅; clock := sample_clock; hash_seed := 0; json_files := ∅;
     stdout := [] |}.

(** A member row with a rating for the seminars only. *)
Definition seminar_row : gmap string cell :=
  <[PRIORITY_PREFIX +:+ "[Seminarios]" := CStr " Alta "]> jdoe_row.

(** * Properties *)

(** ** Results *)

Lemma bind_Returns {A B} (m : result A) (f : A -> result B) (b : B) :
  m ≫= f = Returns b -> exists a, m = Returns a /\ f a = Returns b.
Proof.
  destruct m as [a|e]; cbn; intros H; [eauto | discriminate].
Qed.

Lemma fmap_Returns {A B} (g : A -> B) (m : result A) (b : B) :
  g <$> m = Returns b -> exists a, m = Returns a /\ b = g a.
Proof.
  destruct m as [a|e]; cbn; intros H; [| discriminate].
  exists a. split; [reflexivity | congruence].
Qed.

Lemma bind_Raises {A B} (m : result A) (f : A -> result B) (e : exn) :
  m = Raises e -> m ≫= f = Raises e.
Proof. intros ->. reflexivity. Qed.

(** ** Splitting and the skills *)

Lemma split_char_replace (s : string) :
  split_char "," (replace_char ";" "," s) = split_on comma_or_semicolon s.
Proof.
  induction s as [|c s IH]; [reflexivity|].
  cbn [replace_char split_char split_on]. unfold comma_or_semicolon at 1.
  destruct (Ascii.eqb_spec c ";") as [->|Hsemi].
  - cbn. now rewrite IH.
  - rewrite orb_false_r. destruct (Ascii.eqb c ","); now rewrite IH.
Qed.

Lemma split_on_nonempty (sep : ascii -> bool) (s : string) : split_on sep s <> [].
Proof.
  destruct s as [|c s]; cbn; [discriminate|].
  destruct (sep c); [discriminate|]. destruct (split_on sep s); discriminate.
Qed.

(** No token holds a separator. *)
Lemma split_on_tokens (sep : ascii -> bool) (s : string) :
  Forall (fun t => forallb (fun c => negb (sep c)) (list_ascii_of_string t) = true)
         (split_on sep s).
Proof.
  induction s as [|c s IH]; cbn.
  - repeat constructor.
  - destruct (sep c) eqn:Hc.
    + constructor; [reflexivity | exact IH].
    + destruct (split_on sep s) as [|t ts]; [repeat constructor; cbn; now rewrite Hc|].
      inversion IH; subst. constructor; [cbn; now rewrite Hc | assumption].
Qed.

Lemma keep_trimmed (l : list string) :
  omap (fun s => if truthy (strip s) then Some (strip s) else None) l
  = List.filter truthy (strip <$> l).
Proof.
  induction l as [|x l IH]; [reflexivity|].
  cbn. destruct (truthy (strip x)); cbn; now rewrite IH.
Qed.

(** C5. [parse_skills] gives nothing for a blank cell; for any other cell it
    gives the tokens of the cell text between commas and semicolons, each
    trimmed, the empty ones dropped, in their order and with their repetitions;
    and "Python; SQL, , R" gives Python, SQL, R. *)
Theorem parse_skills_is_parseSkills (raw : cell) :
  parse_skills raw = parseSkills raw
  /\ parse_skills (CStr "Python; SQL, , R") = ["Python"; "SQL"; "R"].
Proof.
  split; [|reflexivity].
  unfold parse_skills, parseSkills. destruct (isna raw); [reflexivity|].
  now rewrite keep_trimmed, split_char_replace.
Qed.

(** ** The generation *)

Lemma ratio_of_sound (m : N) (e : Z) :
  0 <= fst (ratio_of m e) /\ 0 < snd (ratio_of m e).
Proof.
  unfold ratio_of. destruct (0 <=? e) eqn:He; cbn.
  - split; [|lia]. apply Z.leb_le in He. apply Z.mul_nonneg_nonneg; [lia|].
    apply Z.pow_nonneg. lia.
  - split; [lia|]. apply Z.leb_gt in He. apply Z.pow_pos_nonneg; lia.
Qed.

Lemma int_of_float_finite (neg : bool) (m : N) (e : Z) :
  int_of_float (FFin neg m e) = Returns (integer_part neg m e).
Proof.
  unfold int_of_float, integer_part.
  pose proof (ratio_of_sound m e) as [Hn Hd].
  destruct (ratio_of m e) as [n d]; cbn in Hn, Hd.
  f_equal. destruct neg.
  - rewrite Z.quot_opp_l by lia. now rewrite Z.quot_div_nonneg by lia.
  - now rewrite Z.quot_div_nonneg by lia.
Qed.

(** The integer part is the value cut towards zero: it has the sign of the
    value and its magnitude is the largest integer not above the value's. *)
Lemma integer_part_truncates (neg : bool) (m : N) (e : Z) :
  let '(n, d) := ratio_of m e in
  let k := integer_part neg m e in
  Z.abs k * d <= n < (Z.abs k + 1) * d /\ (if neg then k <= 0 else 0 <= k).
Proof.
  unfold integer_part.
  pose proof (ratio_of_sound m e) as [Hn Hd].
  destruct (ratio_of m e) as [n d]; cbn in Hn, Hd.
  assert (Hq : 0 <= n / d) by (apply Z.div_pos; lia).
  assert (Hlo : d * (n / d) <= n) by (apply Z.mul_div_le; lia).
  assert (Hhi : n < d * Z.succ (n / d)) by (apply Z.mul_succ_div_gt; lia).
  destruct neg.
  - rewrite Z.quot_opp_l by lia. rewrite Z.quot_div_nonneg by lia.
    rewrite Z.abs_opp, Z.abs_eq by lia. lia.
  - rewrite Z.quot_div_nonneg by lia. rewrite Z.abs_eq by lia. lia.
Qed.

Lemma str_of_int_not_nan (n : Z) : str_of_int n <> "NAN".
Proof.
  unfold str_of_int. destruct (Z.to_int n) as [d|d]; cbn; [|discriminate].
  destruct d; cbn; discriminate.
Qed.

(** C4. A generation cell that reads as an infinite number makes
    [normalize_generation] raise: the overflow of [int] is not among the
    errors it catches. *)
Theorem normalize_generation_raises_on_infinity :
  normalize_generation (CStr "inf") = Raises OverflowError
  /\ normalize_generation (CStr "1e999") = Raises OverflowError
  /\ normalize_generation (CFloat (FInf false)) = Raises OverflowError.
Proof. repeat split; vm_compute; reflexivity. Qed.

(** C6, as the specification states it, fails on the text "NAN": the cell is
    not blank and reads as a float, yet the result is the text itself, which
    is the rendering of no integer. *)
Lemma normalize_generation_nan_text :
  isna (CStr "NAN") = false
  /\ py_float (CStr "NAN") = Returns FNan
  /\ normalize_generation (CStr "NAN") = Returns (Some "NAN")
  /\ ~ (exists n, normalize_generation (CStr "NAN") = Returns (Some (str_of_int n))).
Proof.
  assert (H : normalize_generation (CStr "NAN") = Returns (Some "NAN"))
    by (vm_compute; reflexivity).
  repeat split; try (vm_compute; reflexivity).
  intros [n Hn]. rewrite H in Hn. injection Hn as Hn.
  symmetry in Hn. exact (str_of_int_not_nan n Hn).
Qed.

(** C6, amended. [normalize_generation] gives nothing for a blank cell; for a
    cell that reads as a finite float it gives the text of the integer part,
    cut towards zero; for a cell that reads as not-a-number or does not read
    as a float (a value or a type error) it gives the cell text, trimmed; 2021.0
    gives "2021" and "N/A" gives "N/A". *)
Theorem normalize_generation_amended (raw : cell) :
  (isna raw = true -> normalize_generation raw = Returns None)
  /\ (forall neg m e,
        isna raw = false -> py_float raw = Returns (FFin neg m e) ->
        normalize_generation raw = Returns (Some (str_of_int (integer_part neg m e))))
  /\ (isna raw = false ->
      py_float raw = Returns FNan \/ py_float raw = Raises ValueError
      \/ py_float raw = Raises TypeError ->
      normalize_generation raw = Returns (Some (strip (py_str raw))))
  /\ normalize_generation (CFloat (FFin false 2021 0)) = Returns (Some "2021")
  /\ normalize_generation (CStr "N/A") = Returns (Some "N/A").
Proof.
  unfold normalize_generation. repeat split.
  - now intros ->.
  - intros neg m e -> ->. cbn [mbind result_bind].
    now rewrite int_of_float_finite.
  - intros -> [-> | [-> | ->]]; reflexivity.
Qed.

(** The amended statement at three cells: a blank one, the text " 2021.9 "
    and a date. *)
Lemma normalize_generation_amended_witness :
  normalize_generation CNaN = Returns None
  /\ normalize_generation (CStr " 2021.9 ") = Returns (Some "2021")
  /\ normalize_generation (CDate sample_clock) = Returns (Some "2025-03-04 05:06:07").
Proof.
  split; [|split].
  - exact (proj1 (normalize_generation_amended CNaN) eq_refl).
  - exact (proj1 (proj2 (normalize_generation_amended (CStr " 2021.9 ")))
             false 8892410240801178%N (-42) eq_refl eq_refl).
  - exact (proj1 (proj2 (proj2 (normalize_generation_amended (CDate sample_clock))))
             eq_refl (or_intror (or_intror eq_refl))).
Defined.

Lemma float_of_str_errors (s : string) (y : exn) :
  float_of_str s = Raises y -> y = ValueError.
Proof.
  unfold float_of_str. intros H. repeat case_match; congruence.
Qed.

Lemma py_float_errors (raw : cell) (y : exn) :
  py_float raw = Raises y -> y = ValueError \/ y = TypeError \/ y = OverflowError.
Proof.
  destruct raw as [| |f|n|b|s|d]; cbn; intros H; try discriminate H.
  - right. left. congruence.
  - right. left. congruence.
  - unfold float_of_int in H. right. right. case_match; congruence.
  - left. exact (float_of_str_errors s y H).
  - right. left. congruence.
Qed.

(** [normalize_generation] raises on no other cell than one that converts to
    an infinity or is an integer too large for a float, and the error is the
    overflow. *)
Lemma normalize_generation_raises_iff (raw : cell) (x : exn) :
  normalize_generation raw = Raises x
  <-> isna raw = false /\ x = OverflowError
      /\ ((exists neg, py_float raw = Returns (FInf neg))
          \/ py_float raw = Raises OverflowError).
Proof.
  unfold normalize_generation. destruct (isna raw).
  { split; [discriminate | now intros [? _]]. }
  destruct (py_float raw) as [[|neg|neg m e]|y] eqn:Hf; cbn [mbind result_bind];
    try rewrite int_of_float_finite.
  - cbn. split; [discriminate|]. intros (_ & _ & [[? H]|H]); discriminate H.
  - cbn. split.
    + intros [= <-]. split; [reflexivity|]. split; [reflexivity|]. left. now exists neg.
    + now intros (_ & -> & _).
  - cbn. split; [discriminate|]. intros (_ & _ & [[? H]|H]); discriminate H.
  - destruct (py_float_errors raw y Hf) as [-> | [-> | ->]]; cbn; split;
      try discriminate; try (intros (_ & _ & [[? H]|H]); discriminate H).
    + intros [= <-]. split; [reflexivity|]. split; [reflexivity|]. now right.
    + now intros (_ & -> & _).
Qed.

(** The examples of the specification for the academic level. *)
Example normalize_academic_level_examples :
  normalize_academic_level (CStr "Licenciatura en Ciencia de Datos") = Some "licenciatura"
  /\ normalize_academic_level (CStr "Maestría") = Some "posgrado"
  /\ normalize_academic_level (CStr "") = None
  /\ normalize_academic_level CNaN = None.
Proof. repeat split. Qed.

(** ** The loader and the exclusion filter *)

Lemma lookup_email_norm (row : gmap string cell) :
  with_email_norm row !! "email_norm"
  = Some (match normalized_email row with Some e => CStr e | None => CNaN end).
Proof. unfold with_email_norm. apply lookup_insert_eq. Qed.

Lemma lookup_with_email_norm (row : gmap string cell) (c : string) :
  c <> "email_norm" -> with_email_norm row !! c = row !! c.
Proof. intros Hc. unfold with_email_norm. now apply lookup_insert_ne. Qed.

Lemma row_get_with_email_norm (row : gmap string cell) (c : string) :
  c <> "email_norm" -> row_get (with_email_norm row) c = row_get row c.
Proof. intros Hc. unfold row_get. now rewrite lookup_with_email_norm. Qed.

Lemma email_norm_column (l : list (gmap string cell)) :
  zip_with (fun r v => <["email_norm" := v]> r) l
    ((fun c => match c with CStr x => CStr (lower x) | _ => CNaN end)
     <$> ((fun c => match c with CStr x => CStr (strip x) | _ => CNaN end)
          <$> ((fun r => default CNaN (r !! COL_EMAIL)) <$> l)))
  = with_email_norm <$> l.
Proof.
  induction l as [|r l IH]; [reflexivity|].
  cbn [fmap list_fmap zip_with]. f_equal; [|exact IH].
  unfold with_email_norm, normalized_email.
  destruct (r !! COL_EMAIL) as [[]|]; reflexivity.
Qed.

(** The loader's three column operations come to this: a sheet whose e-mail
    column holds text gets the normalised e-mail added to each row. *)
Lemma add_email_norm_spec (df : DataFrame) :
  add_email_norm df =
    match dtypes df !! COL_EMAIL with
    | Some DObject =>
        Returns {| dtypes := <["email_norm" := DObject]> (dtypes df);
                   rows := with_email_norm <$> rows df |}
    | Some DOther => Raises AttributeError
    | None => Raises KeyError
    end.
Proof.
  unfold add_email_norm, df_getitem.
  destruct (dtypes df !! COL_EMAIL) as [[]|]; try reflexivity.
  cbn. unfold df_setitem. cbn. f_equal. f_equal. apply email_norm_column.
Qed.

Lemma filter_fmap {A B} (f : B -> bool) (g : A -> B) (l : list A) :
  List.filter f (g <$> l) = g <$> List.filter (fun a => f (g a)) l.
Proof.
  induction l as [|a l IH]; [reflexivity|].
  cbn. destruct (f (g a)); cbn; now rewrite IH.
Qed.

Lemma excluded_email_norm (row : gmap string cell) :
  negb (excluded (default CNaN (with_email_norm row !! "email_norm"))) = kept row.
Proof.
  rewrite lookup_email_norm. unfold kept.
  destruct (normalized_email row); reflexivity.
Qed.

Lemma drop_excluded_rows (df : DataFrame) (l : list (gmap string cell)) :
  rows df = with_email_norm <$> l ->
  rows (drop_excluded df) = with_email_norm <$> List.filter kept l.
Proof.
  intros H. unfold drop_excluded. cbn. rewrite H, filter_fmap.
  f_equal. apply filter_ext. intros row. apply excluded_email_norm.
Qed.

(** ** The account joiner *)

Lemma last_filter_cons {A} (p : A -> bool) (x : A) (l : list A) :
  last (List.filter p (x :: l))
  = match last (List.filter p l) with
    | Some y => Some y
    | None => if p x then Some x else None
    end.
Proof.
  cbn. destruct (p x); [|now destruct (last (List.filter p l))].
  destruct (List.filter p l) as [|y l'] eqn:E; [reflexivity|].
  rewrite last_cons. now destruct (last (y :: l')).
Qed.

Lemma account_step_spec (m0 : gmap (option string) string) (row : gmap string cell) :
  account_step m0 (with_email_norm row) =
    let nc := row_get row "Numero de cuenta" in
    if notna nc then
      match py_int nc with
      | Returns n => Returns (<[normalized_email row := str_of_int n]> m0)
      | Raises e => Raises e
      end
    else Returns m0.
Proof.
  unfold account_step, row_getitem. rewrite lookup_email_norm.
  cbn [mbind result_bind]. rewrite row_get_with_email_norm by discriminate.
  cbn zeta. destruct (notna (row_get row "Numero de cuenta")); [|reflexivity].
  destruct (py_int (row_get row "Numero de cuenta")) as [n|e]; [|reflexivity].
  cbn. do 2 f_equal. now destruct (normalized_email row).
Qed.

Lemma integer_of_cell_py_int (c : cell) :
  integer_of_cell c = match py_int c with Returns n => Some n | Raises _ => None end.
Proof.
  destruct c as [| |[|neg|neg m e]|n|b|s|d]; try reflexivity.
  cbn [integer_of_cell py_int]. now rewrite int_of_float_finite.
Qed.

Lemma account_of_py_int (e : string) (l : list (gmap string cell)) :
  account_of e l
  = match last (List.filter (has_account e) l) with
    | Some row =>
        match py_int (row_get row "Numero de cuenta") with
        | Returns n => Some (str_of_int n)
        | Raises _ => None
        end
    | None => None
    end.
Proof.
  unfold account_of. destruct (last _) as [row|]; [|reflexivity].
  rewrite integer_of_cell_py_int. now destruct (py_int _).
Qed.

Lemma account_of_cons (e : string) (row : gmap string cell) (l : list (gmap string cell)) :
  forallb coercible l = true ->
  account_of e (row :: l)
  = match account_of e l with
    | Some v => Some v
    | None =>
        if has_account e row then
          match py_int (row_get row "Numero de cuenta") with
          | Returns n => Some (str_of_int n)
          | Raises _ => None
          end
        else None
    end.
Proof.
  intros Hl. rewrite !account_of_py_int, last_filter_cons.
  destruct (last (List.filter (has_account e) l)) as [g|] eqn:Hlast;
    [|now destruct (has_account e row)].
  assert (Hg : g ∈ List.filter (has_account e) l).
  { apply last_Some in Hlast as [l' ->]. apply elem_of_app. right. now left. }
  apply list_elem_of_In, filter_In in Hg as [Hin Hacc].
  rewrite forallb_forall in Hl. specialize (Hl g Hin).
  unfold has_account in Hacc. apply andb_true_iff in Hacc as [_ Hna].
  unfold coercible, notna in *. apply negb_true_iff in Hna. rewrite Hna in Hl.
  cbn in Hl. now destruct (py_int (row_get g "Numero de cuenta")).
Qed.

Lemma build_account_map_spec (l : list (gmap string cell)) :
  forall m0 : gmap (option string) string,
  forallb coercible l = true ->
  exists m, build_account_map m0 (with_email_norm <$> l) = Returns m
    /\ forall e, m !! Some e = match account_of e l with
                               | Some v => Some v
                               | None => m0 !! Some e
                               end.
Proof.
  induction l as [|row l IH]; intros m0 Hok.
  - exists m0. split; [reflexivity|]. intros e. reflexivity.
  - cbn in Hok. apply andb_true_iff in Hok as [Hrow Hl].
    cbn [fmap list_fmap build_account_map]. rewrite account_step_spec. cbn zeta.
    unfold coercible in Hrow. unfold notna.
    destruct (isna (row_get row "Numero de cuenta")) eqn:Hna; cbn [negb].
    + cbn [mbind result_bind]. destruct (IH m0 Hl) as (m & Hm & Hlook).
      exists m. split; [exact Hm|]. intros e.
      rewrite Hlook, (account_of_cons e row l Hl).
      destruct (account_of e l); [reflexivity|].
      unfold has_account, notna. rewrite Hna, andb_false_r. reflexivity.
    + cbn in Hrow.
      destruct (py_int (row_get row "Numero de cuenta")) as [n|x] eqn:Hint;
        [|discriminate].
      cbn [mbind result_bind].
      destruct (IH (<[normalized_email row := str_of_int n]> m0) Hl) as (m & Hm & Hlook).
      exists m. split; [exact Hm|]. intros e.
      rewrite Hlook, (account_of_cons e row l Hl).
      destruct (account_of e l); [reflexivity|].
      unfold has_account, notna. rewrite Hna. cbn [negb]. rewrite andb_true_r.
      case_bool_decide as He.
      * rewrite He, lookup_insert_eq, Hint. reflexivity.
      * rewrite lookup_insert_ne by congruence. reflexivity.
Qed.

Lemma build_account_map_raises (l : list (gmap string cell)) :
  forall (m0 : gmap (option string) string) (row : gmap string cell),
  row ∈ l ->
  notna (row_get row "Numero de cuenta") = true ->
  (forall n, py_int (row_get row "Numero de cuenta") <> Returns n) ->
  exists e, build_account_map m0 (with_email_norm <$> l) = Raises e.
Proof.
  induction l as [|r l IH]; intros m0 row Hin Hna Hbad.
  - inversion Hin.
  - cbn [fmap list_fmap build_account_map].
    destruct (account_step m0 (with_email_norm r)) as [m1|e] eqn:Hstep.
    + cbn [mbind result_bind]. apply elem_of_cons in Hin as [->|Hin].
      * rewrite account_step_spec in Hstep. cbn zeta in Hstep. rewrite Hna in Hstep.
        destruct (py_int (row_get r "Numero de cuenta")) as [n|e] eqn:Hint;
          [exfalso; exact (Hbad n eq_refl) | discriminate].
      * exact (IH m1 row Hin Hna Hbad).
    + exists e. reflexivity.
Qed.

(** ** Names and the classification *)

Lemma safe_str_truthy (c : cell) (s : string) : safe_str c = Some s -> truthy s = true.
Proof.
  unfold safe_str. destruct (isna c); [discriminate|].
  destruct (truthy (strip (py_str c))) eqn:E; [|discriminate].
  now intros [= <-].
Qed.

(** [safe_str] in the words of the specification: the trimmed text of a cell
    that is not blank and not made of white space only. *)
Lemma safe_str_spec (c : cell) (s : string) :
  safe_str c = Some s <-> isna c = false /\ s = strip (py_str c) /\ s <> "".
Proof.
  unfold safe_str. destruct (isna c).
  - split; [discriminate | now intros [? _]].
  - destruct (strip (py_str c)) eqn:E; cbn.
    + split; [discriminate | intros (_ & -> & H); now contradict H].
    + split; [intros [= <-]; repeat split; discriminate | now intros (_ & -> & _)].
Qed.


Lemma join_two (a b : cell) :
  join " " (filter_None [safe_str a; safe_str b]) = joined (safe_str a) (safe_str b).
Proof.
  unfold filter_None.
  destruct (safe_str a) as [x|] eqn:Ha; destruct (safe_str b) as [y|] eqn:Hb; cbn;
    try rewrite (safe_str_truthy a x Ha); try rewrite (safe_str_truthy b y Hb);
    reflexivity.
Qed.


Lemma hd_split_at (s : string) : hd "" (split_char "@" s) = local_part s.
Proof.
  induction s as [|c s IH]; [reflexivity|].
  cbn. destruct (Ascii.eqb c "@"); [reflexivity|].
  destruct (split_char "@" s); cbn in *; now rewrite <- IH.
Qed.

(** The local part is the text up to the first [@]: it holds no [@], and what
    follows it in the address is nothing or starts with [@]. *)
Lemma local_part_spec (s : string) :
  contains "@" (local_part s) = false
  /\ exists rest, s = local_part s +:+ rest
       /\ (rest = "" \/ exists t, rest = String "@" t).
Proof.
  induction s as [|c s [IHno (rest & IHeq & IHrest)]].
  - split; [reflexivity|]. exists "". split; [reflexivity | now left].
  - cbn [local_part]. destruct (Ascii.eqb_spec c "@") as [->|Hc].
    + split; [reflexivity|]. exists (String "@" s). split; [reflexivity|]. right. now exists s.
    + split.
      * cbn [contains String.prefix]. rewrite IHno, orb_false_r.
        destruct (ascii_dec "@" c) as [Heq|]; [now contradict Hc|].
        reflexivity.
      * exists rest. split; [|exact IHrest].
        change (String c s = String c (local_part s +:+ rest)). now f_equal.
Qed.

Lemma safe_str_cell_text (c : cell) : safe_str c = cell_text c.
Proof.
  unfold safe_str, cell_text. destruct (isna c); [reflexivity|].
  now destruct (strip (py_str c)).
Qed.

Lemma is_member_row_classified (row : gmap string cell) :
  is_member_row row = classified_member row.
Proof.
  unfold is_member_row, classified_member, or_else.
  rewrite <- safe_str_cell_text.
  destruct (safe_str (row_get row "Tipo de registro")) as [[|c s]|]; reflexivity.
Qed.

Lemma count_roles (l : list record) :
  Forall (fun r => role r = "member" \/ role r = "collaborator") l ->
  (count_role "member" l + count_role "collaborator" l = length l)%nat.
Proof.
  unfold count_role. induction 1 as [|r l Hr _ IH]; [reflexivity|].
  cbn [List.filter length]. destruct Hr as [-> | ->]; cbn; lia.
Qed.

(** ** The record builder and the run *)

Section ScriptProperties.

Variable Timestamp_isoformat : cell -> result string.

(** What a record that was built says about its row. *)
Lemma build_record_fields (account_map : gmap (option string) string)
    (row : gmap string cell) (r : record) :
  build_record Timestamp_isoformat account_map row = Returns r ->
  exists e fn lp lm,
    row !! COL_EMAIL = Some (CStr e)
    /\ row !! "Nombre(s)" = Some fn
    /\ row !! "Apellido Paterno" = Some lp
    /\ row !! "Apellido Materno" = Some lm
    /\ email r = strip e
    /\ displayName r
       = (if truthy (joined (safe_str fn) (safe_str lp))
          then joined (safe_str fn) (safe_str lp) else local_part (strip e))
    /\ firstName r = safe_str fn
    /\ lastName r = joined (safe_str lp) (safe_str lm)
    /\ classification r = (if classified_member row then MEMBER else COLLABORATOR)
    /\ numeroCuenta r = account_map !! Some (lower (strip e)).
Proof.
  unfold build_record, row_getitem, COL_EMAIL. intros H.
  remember filter_None as present eqn:Hpresent.
  destruct (row !! "Dirección de correo electrónico") as [c|]; [|discriminate].
  destruct c as [| | | | |e|]; try discriminate.
  destruct (row !! "Nombre(s)") as [fn|]; [|discriminate].
  destruct (row !! "Apellido Paterno") as [lp|]; [|discriminate].
  destruct (row !! "Apellido Materno") as [lm|]; [|discriminate].
  cbn [mbind result_bind fmap result_fmap cell_strip] in H.
  destruct (normalize_generation _) as [g|]; [|discriminate].
  cbn [mbind result_bind mret result_ret] in H.
  injection H as <-.
  exists e, fn, lp, lm. unfold classification. cbn [email displayName firstName lastName
    role registrationType verificationStatus lifecycleStatus numeroCuenta].
  subst present. rewrite !join_two, hd_split_at, is_member_row_classified.
  repeat split. now destruct (classified_member row).
Qed.

Lemma build_records_Forall2 (account_map : gmap (option string) string)
    (l : list (gmap string cell)) :
  forall records,
  build_records Timestamp_isoformat account_map l = Returns records ->
  Forall2 (fun row r => build_record Timestamp_isoformat account_map row = Returns r)
          l records.
Proof.
  induction l as [|row l IH]; intros records H.
  - injection H as <-. constructor.
  - cbn [build_records] in H.
    apply bind_Returns in H as (r & Hr & H).
    apply bind_Returns in H as (rs & Hrs & H).
    injection H as <-. constructor; [exact Hr | exact (IH rs Hrs)].
Qed.

(** A run that ends well went through every stage, and the file it leaves is
    the document made from the records. *)
Lemma main_Returns (w w' : world) :
  main Timestamp_isoformat w = (Returns tt, w') ->
  exists df_members df_accounts account_map records,
    read_excel w "tmp/members.xlsx" = Returns df_members
    /\ read_excel w "tmp/members-accounts.xlsx" = Returns df_accounts
    /\ dtypes df_members !! COL_EMAIL = Some DObject
    /\ dtypes df_accounts !! COL_EMAIL = Some DObject
    /\ build_account_map ∅ (with_email_norm <$> rows df_accounts) = Returns account_map
    /\ build_records Timestamp_isoformat account_map
         (with_email_norm <$> List.filter kept (rows df_members)) = Returns records
    /\ json_files w' !! OUTPUT_PATH
       = Some (make_output (clock w) (set_list (hash_seed w) EXCLUDED_EMAILS) records).
Proof.
  unfold main. destruct (prepare Timestamp_isoformat w) as [records|e] eqn:Hp;
    [|discriminate].
  intros [= <-]. unfold prepare in Hp.
  apply bind_Returns in Hp as (dfm & Hm & Hp).
  apply bind_Returns in Hp as (dfa & Ha & Hp).
  apply bind_Returns in Hp as (dfm' & Hm' & Hp).
  apply bind_Returns in Hp as (dfa' & Ha' & Hp).
  apply bind_Returns in Hp as (amap & Hmap & Hp).
  rewrite add_email_norm_spec in Hm', Ha'.
  destruct (dtypes dfm !! COL_EMAIL) as [[]|] eqn:Hdm; try discriminate.
  destruct (dtypes dfa !! COL_EMAIL) as [[]|] eqn:Hda; try discriminate.
  injection Hm' as <-. injection Ha' as <-.
  rewrite (drop_excluded_rows _ (rows dfm)) in Hp by reflexivity.
  exists dfm, dfa, amap, records. repeat split; try assumption.
  cbn. unfold OUTPUT_PATH. apply lookup_insert_eq.
Qed.

End ScriptProperties.

(** The account number of an e-mail that no row carries with a number is
    not in the map, and of several rows that carry it the last one counts. *)
Lemma account_of_absent (e : string) (l : list (gmap string cell)) :
  forallb (fun row => negb (has_account e row)) l = true -> account_of e l = None.
Proof.
  intros H. rewrite account_of_py_int.
  replace (List.filter (has_account e) l) with (@nil (gmap string cell)); [reflexivity|].
  induction l as [|row l IH]; [reflexivity|].
  cbn in H. apply andb_true_iff in H as [Hrow Hl]. cbn.
  apply negb_true_iff in Hrow. rewrite Hrow. exact (IH Hl).
Qed.

Lemma account_of_last (e : string) (l1 l2 : list (gmap string cell))
    (row : gmap string cell) (n : Z) :
  has_account e row = true ->
  py_int (row_get row "Numero de cuenta") = Returns n ->
  forallb (fun r => negb (has_account e r)) l2 = true ->
  account_of e (l1 ++ row :: l2) = Some (str_of_int n).
Proof.
  intros Hrow Hint Hl2. rewrite account_of_py_int.
  rewrite List.filter_app. cbn [List.filter]. rewrite Hrow.
  replace (List.filter (has_account e) l2) with (@nil (gmap string cell)).
  - rewrite last_snoc, Hint. reflexivity.
  - induction l2 as [|r l2 IH]; [reflexivity|].
    cbn in Hl2. apply andb_true_iff in Hl2 as [Hr Hl2]. cbn.
    apply negb_true_iff in Hr. rewrite Hr. exact (IH Hl2).
Qed.

(** C7. When every account cell is blank or converts to an integer, the
    joiner returns a map that gives each normalised e-mail the text of the
    integer account number of the last row that has this e-mail and an account
    cell that is not blank, and nothing when there is no such row.  So the
    float 316012345.0 is kept as "316012345" and the text " 0042 " as "42"; a
    row with a blank account cell leaves no entry, and of two rows for one
    e-mail the second is the one that counts. *)
Theorem account_joiner_last_wins (df : DataFrame) :
  dtypes df !! COL_EMAIL = Some DObject ->
  forallb coercible (rows df) = true ->
  (exists df' m,
      add_email_norm df = Returns df'
      /\ build_account_map ∅ (rows df') = Returns m
      /\ forall e, m !! Some e = account_of e (rows df))
  /\ account_of "jdoe@example.com"
       [account_row (CStr " JDoe@Example.com") (CFloat (FFin false 316012345 0))]
     = Some "316012345"
  /\ account_of "ana@x.mx" [account_row (CStr "ana@x.mx") (CStr " 0042 ")] = Some "42"
  /\ account_of "ana@x.mx" [account_row (CStr "ana@x.mx") (CInt (-7))] = Some "-7"
  /\ account_of "ana@x.mx" [account_row (CStr "ana@x.mx") CNaN] = None
  /\ account_of "ana@x.mx"
       [account_row (CStr "ana@x.mx") (CInt 1); account_row (CStr "Ana@X.mx ") (CInt 2);
        account_row (CStr "ana@x.mx") CNaN; account_row (CStr "eva@x.mx") (CInt 3)]
     = Some "2".
Proof.
  intros Hcol Hok. split; [|repeat split; vm_compute; reflexivity].
  rewrite add_email_norm_spec, Hcol.
  destruct (build_account_map_spec (rows df) ∅ Hok) as (m & Hm & Hlook).
  eexists _, m. split; [reflexivity|]. split; [exact Hm|].
  intros e. rewrite Hlook, lookup_empty. now destruct (account_of e (rows df)).
Qed.

(** The joiner on the sample accounts: the second row for jdoe wins, so the
    account of jdoe is "42" and not "316012345", and ana, whose account cell is
    blank, gets no entry. *)
Lemma account_joiner_last_wins_witness :
  exists df' m,
    add_email_norm sample_accounts = Returns df'
    /\ build_account_map ∅ (rows df') = Returns m
    /\ (forall e, m !! Some e = account_of e (rows sample_accounts))
    /\ m !! Some "jdoe@example.com" = Some "42"
    /\ m !! Some "ana@x.mx" = None
    /\ m !! Some "JDoe@example.com" = None.
Proof.
  destruct (proj1 (account_joiner_last_wins sample_accounts eq_refl eq_refl))
    as (df' & m & Hdf & Hm & Hlook).
  exists df', m. split; [exact Hdf|]. split; [exact Hm|]. split; [exact Hlook|].
  rewrite !Hlook. repeat split; vm_compute; reflexivity.
Defined.

Section Claims.

Variable Timestamp_isoformat : cell -> result string.

Lemma record_of_loaded_row (account_map : gmap (option string) string)
    (row : gmap string cell) (r : record) :
  build_record Timestamp_isoformat account_map (with_email_norm row) = Returns r ->
  exists e fn lp lm,
    row !! COL_EMAIL = Some (CStr e)
    /\ row !! "Nombre(s)" = Some fn
    /\ row !! "Apellido Paterno" = Some lp
    /\ row !! "Apellido Materno" = Some lm
    /\ email r = strip e
    /\ displayName r
       = (if truthy (joined (safe_str fn) (safe_str lp))
          then joined (safe_str fn) (safe_str lp) else local_part (strip e))
    /\ firstName r = safe_str fn
    /\ lastName r = joined (safe_str lp) (safe_str lm)
    /\ classification r = (if classified_member row then MEMBER else COLLABORATOR)
    /\ numeroCuenta r = account_map !! Some (lower (strip e)).
Proof.
  intros H. apply build_record_fields in H
    as (e & fn & lp & lm & He & Hfn & Hlp & Hlm & H1 & H2 & H3 & H4 & H5 & H6).
  rewrite lookup_with_email_norm in He, Hfn, Hlp, Hlm by discriminate.
  exists e, fn, lp, lm. repeat split; try assumption.
  rewrite H5. unfold classified_member.
  now rewrite !row_get_with_email_norm by discriminate.
Qed.

(** The records of a run that ends well are those of the member rows that
    were kept, one for one and in their order. *)
Lemma main_records (w w' : world) (doc : output) :
  main Timestamp_isoformat w = (Returns tt, w') ->
  json_files w' !! OUTPUT_PATH = Some doc ->
  exists df account_map,
    read_excel w "tmp/members.xlsx" = Returns df
    /\ doc = make_output (clock w) (set_list (hash_seed w) EXCLUDED_EMAILS) (members doc)
    /\ Forall2 (fun row r => build_record Timestamp_isoformat account_map
                               (with_email_norm row) = Returns r)
               (List.filter kept (rows df)) (members doc).
Proof.
  intros Hmain Hdoc.
  apply main_Returns in Hmain as (dfm & dfa & amap & records & Hm & _ & _ & _ & _ & Hrec & Hout).
  rewrite Hout in Hdoc. injection Hdoc as <-.
  exists dfm, amap. split; [exact Hm|]. split; [reflexivity|].
  apply build_records_Forall2 in Hrec. cbn [members make_output].
  now apply Forall2_fmap_l in Hrec.
Qed.

Lemma set_list_Permutation (seed : nat) (s : gset string) :
  set_list seed s ≡ₚ elements s.
Proof.
  unfold set_list. destruct (Nat.even seed); [reflexivity | apply reverse_Permutation].
Qed.

(** The two e-mails of the excluded set come out in either order. *)
Lemma set_list_orders :
  set_list 1 EXCLUDED_EMAILS = reverse (set_list 0 EXCLUDED_EMAILS)
  /\ set_list 0 EXCLUDED_EMAILS <> set_list 1 EXCLUDED_EMAILS.
Proof. split; [reflexivity | vm_compute; discriminate]. Qed.

Lemma Forall2_with_Forall {A B} (Q : A -> Prop) (P : A -> B -> Prop)
    (l : list A) (k : list B) :
  Forall Q l -> Forall2 P l k -> Forall2 (fun a b => Q a /\ P a b) l k.
Proof.
  intros HQ HP. induction HP as [|a b l k Hab _ IH]; [constructor|].
  inversion HQ; subst. constructor; [now split | now apply IH].
Qed.

Lemma filter_kept_Forall (l : list (gmap string cell)) :
  Forall (fun row => kept row = true) (List.filter kept l).
Proof.
  apply List.Forall_forall. intros row Hin. now apply filter_In in Hin.
Qed.

Lemma filter_sublist {A} (f : A -> bool) (l : list A) : sublist (List.filter f l) l.
Proof.
  induction l as [|a l IH]; [constructor|].
  cbn. destruct (f a); now constructor.
Qed.

(** C1. In the document of a run, the record of every member row that was
    kept has role "member" exactly when the rule holds for the row, and its
    four classification fields are the member values when it holds and the
    collaborator values when it does not: no record mixes them. *)
Theorem classification_follows_one_rule (w w' : world) (doc : output) :
  main Timestamp_isoformat w = (Returns tt, w') ->
  json_files w' !! OUTPUT_PATH = Some doc ->
  (exists df,
      read_excel w "tmp/members.xlsx" = Returns df
      /\ Forall2 (fun row r =>
                    (role r = "member" <-> classified_member row = true)
                    /\ classification r
                       = if classified_member row then MEMBER else COLLABORATOR)
                 (List.filter kept (rows df)) (members doc))
  /\ Forall (fun r => classification r = MEMBER \/ classification r = COLLABORATOR)
            (members doc).
Proof.
  intros Hmain Hdoc.
  destruct (main_records w w' doc Hmain Hdoc) as (df & amap & Hdf & _ & Hrec).
  assert (H : Forall2 (fun row r =>
                (role r = "member" <-> classified_member row = true)
                /\ classification r
                   = if classified_member row then MEMBER else COLLABORATOR)
              (List.filter kept (rows df)) (members doc)).
  { eapply Forall2_impl; [exact Hrec|]. intros row r Hr. cbn beta in Hr.
    apply record_of_loaded_row in Hr
      as (e & fn & lp & lm & _ & _ & _ & _ & _ & _ & _ & _ & Hc & _).
    split; [|exact Hc]. unfold classification in Hc.
    destruct (classified_member row); injection Hc as -> _ _ _;
      split; intros; (reflexivity || discriminate). }
  split; [exists df; now split|].
  apply Forall2_Forall_r with (1 := H). apply Forall_true. intros row r [_ ->].
  destruct (classified_member row); [now left | now right].
Qed.

Lemma build_record_role (account_map : gmap (option string) string)
    (row : gmap string cell) (r : record) :
  build_record Timestamp_isoformat account_map (with_email_norm row) = Returns r ->
  role r = "member" \/ role r = "collaborator".
Proof.
  intros Hr. apply record_of_loaded_row in Hr
    as (e & fn & lp & lm & _ & _ & _ & _ & _ & _ & _ & _ & Hc & _).
  unfold classification in Hc.
  destruct (classified_member row); injection Hc as -> _ _ _; [now left | now right].
Qed.

(** C2. In the document of a run, the total is the number of records, the
    two counts are the numbers of records with role "member" and with role
    "collaborator", and the total is their sum. *)
Theorem output_counts_agree (w w' : world) (doc : output) :
  main Timestamp_isoformat w = (Returns tt, w') ->
  json_files w' !! OUTPUT_PATH = Some doc ->
  totalMembers doc = (memberCount doc + collaboratorCount doc)%nat
  /\ totalMembers doc = length (members doc)
  /\ memberCount doc = count_role "member" (members doc)
  /\ collaboratorCount doc = count_role "collaborator" (members doc).
Proof.
  intros Hmain Hdoc.
  destruct (main_records w w' doc Hmain Hdoc) as (df & amap & _ & Hmake & Hrec).
  assert (Hroles : Forall (fun r => role r = "member" \/ role r = "collaborator")
                          (members doc)).
  { apply Forall2_Forall_r with (1 := Hrec). apply Forall_true. intros row r Hr.
    exact (build_record_role amap row r Hr). }
  rewrite Hmake. cbn [totalMembers memberCount collaboratorCount members make_output].
  repeat split. symmetry. now apply count_roles.
Qed.

(** C3. The exclusion step keeps, in their order, the rows whose normalised
    e-mail is not in the excluded set, and nothing else changes; the records of
    a run are those of the kept rows, and the lowercased e-mail of none of them
    is in the excluded set, which the document lists in one order or
    another. *)
Theorem excluded_emails_are_filtered_out (w w' : world) (doc : output) :
  main Timestamp_isoformat w = (Returns tt, w') ->
  json_files w' !! OUTPUT_PATH = Some doc ->
  Forall (fun r => is_excluded (email r) = false) (members doc)
  /\ excludedEmails doc ≡ₚ elements EXCLUDED_EMAILS
  /\ (exists df,
        read_excel w "tmp/members.xlsx" = Returns df
        /\ sublist (List.filter kept (rows df)) (rows df)
        /\ Forall2 (fun row r => normalized_email row = Some (lower (email r)))
                   (List.filter kept (rows df)) (members doc))
  /\ (forall df df',
        add_email_norm df = Returns df' ->
        rows (drop_excluded df') = with_email_norm <$> List.filter kept (rows df)
        /\ dtypes (drop_excluded df') = dtypes df').
Proof.
  intros Hmain Hdoc.
  destruct (main_records w w' doc Hmain Hdoc) as (df & amap & Hdf & Hmake & Hrec).
  assert (H : Forall2 (fun row r =>
                kept row = true /\ normalized_email row = Some (lower (email r)))
              (List.filter kept (rows df)) (members doc)).
  { apply (Forall2_with_Forall _ _ _ _ (filter_kept_Forall (rows df))) in Hrec.
    eapply Forall2_impl; [exact Hrec|]. intros row r [Hk Hr]. split; [exact Hk|].
    apply record_of_loaded_row in Hr
      as (e & fn & lp & lm & He & _ & _ & _ & Hmail & _).
    unfold normalized_email. now rewrite He, Hmail. }
  split; [|split; [|split]].
  - apply Forall2_Forall_r with (1 := H). apply Forall_true. intros row r [Hk He].
    unfold kept in Hk. rewrite He in Hk. unfold is_excluded.
    now apply negb_true_iff in Hk.
  - rewrite Hmake. cbn [excludedEmails make_output]. apply set_list_Permutation.
  - exists df. split; [exact Hdf|]. split; [apply filter_sublist|].
    eapply Forall2_impl; [exact H|]. now intros row r [_ He].
  - intros df0 df' Hadd. rewrite add_email_norm_spec in Hadd.
    destruct (dtypes df0 !! COL_EMAIL) as [[]|]; try discriminate.
    injection Hadd as <-. split; [|reflexivity].
    now apply drop_excluded_rows.
Qed.



(** C10. When both sheets load and some account row has an account cell that
    is not blank and does not convert to an integer, the joiner raises and the
    run ends with that error, the world as it was: no file is written and
    nothing is printed. *)
Theorem malformed_account_number_aborts (w : world) (df_members df_accounts : DataFrame)
    (row : gmap string cell) :
  read_excel w "tmp/members.xlsx" = Returns df_members ->
  read_excel w "tmp/members-accounts.xlsx" = Returns df_accounts ->
  dtypes df_members !! COL_EMAIL = Some DObject ->
  dtypes df_accounts !! COL_EMAIL = Some DObject ->
  row ∈ rows df_accounts ->
  notna (row_get row "Numero de cuenta") = true ->
  (forall n, py_int (row_get row "Numero de cuenta") <> Returns n) ->
  exists e,
    build_account_map ∅ (with_email_norm <$> rows df_accounts) = Raises e
    /\ main Timestamp_isoformat w = (Raises e, w).
Proof.
  intros Hm Ha Hcm Hca Hin Hna Hbad.
  destruct (build_account_map_raises (rows df_accounts) ∅ row Hin Hna Hbad) as [e He].
  exists e. split; [exact He|].
  unfold main, prepare. rewrite Hm, Ha. cbn [mbind result_bind].
  rewrite !add_email_norm_spec, Hcm, Hca. cbn [mbind result_bind rows].
  now rewrite He.
Qed.

End Claims.

(** ** The sample run *)

Lemma sample_run_ends_well :
  main no_dates sample_world = (Returns tt, snd (main no_dates sample_world))
  /\ json_files (snd (main no_dates sample_world)) !! OUTPUT_PATH = Some sample_doc.
Proof. split; vm_compute; reflexivity. Qed.

(** C1 on the sample run: jdoe, an "Egresado", is a member; Ana, a
    "Colaborador", is a collaborator. *)
Lemma classification_follows_one_rule_witness :
  (exists df,
      read_excel sample_world "tmp/members.xlsx" = Returns df
      /\ Forall2 (fun row r =>
                    (role r = "member" <-> classified_member row = true)
                    /\ classification r
                       = if classified_member row then MEMBER else COLLABORATOR)
                 (List.filter kept (rows df)) (members sample_doc))
  /\ Forall (fun r => classification r = MEMBER \/ classification r = COLLABORATOR)
            (members sample_doc).
Proof.
  exact (classification_follows_one_rule no_dates sample_world _ sample_doc
           (proj1 sample_run_ends_well) (proj2 sample_run_ends_well)).
Defined.

(** C2 on the sample run: two records, one member and one collaborator. *)
Lemma output_counts_agree_witness :
  totalMembers sample_doc = (memberCount sample_doc + collaboratorCount sample_doc)%nat
  /\ totalMembers sample_doc = length (members sample_doc)
  /\ memberCount sample_doc = count_role "member" (members sample_doc)
  /\ collaboratorCount sample_doc = count_role "collaborator" (members sample_doc).
Proof.
  exact (output_counts_agree no_dates sample_world _ sample_doc
           (proj1 sample_run_ends_well) (proj2 sample_run_ends_well)).
Defined.

(** C3 on the sample run: the row of Prueba@SECiD.mx is gone. *)
Lemma excluded_emails_are_filtered_out_witness :
  Forall (fun r => is_excluded (email r) = false) (members sample_doc)
  /\ excludedEmails sample_doc ≡ₚ elements EXCLUDED_EMAILS
  /\ (exists df,
        read_excel sample_world "tmp/members.xlsx" = Returns df
        /\ sublist (List.filter kept (rows df)) (rows df)
        /\ Forall2 (fun row r => normalized_email row = Some (lower (email r)))
                   (List.filter kept (rows df)) (members sample_doc))
  /\ (forall df df',
        add_email_norm df = Returns df' ->
        rows (drop_excluded df') = with_email_norm <$> List.filter kept (rows df)
        /\ dtypes (drop_excluded df') = dtypes df').
Proof.
  exact (excluded_emails_are_filtered_out no_dates sample_world _ sample_doc
           (proj1 sample_run_ends_well) (proj2 sample_run_ends_well)).
Defined.



Lemma sin_cuenta_is_no_integer (n : Z) :
  py_int (row_get (account_row (CStr "ana@x.mx") (CStr "sin cuenta")) "Numero de cuenta")
  <> Returns n.
Proof. vm_compute. discriminate. Qed.

(** C10 on the sample members and the accounts with "sin cuenta" typed as an
    account number. *)
Lemma malformed_account_number_aborts_witness :
  exists e,
    build_account_map ∅ (with_email_norm <$> rows broken_accounts) = Raises e
    /\ main no_dates broken_world = (Raises e, broken_world).
Proof.
  refine (malformed_account_number_aborts no_dates broken_world sample_members
            broken_accounts (account_row (CStr "ana@x.mx") (CStr "sin cuenta"))
            eq_refl eq_refl eq_refl eq_refl _ eq_refl sin_cuenta_is_no_integer).
  unfold broken_accounts. cbn [rows]. apply elem_of_app. right. now left.
Defined.

(** * Further properties of the script *)

Lemma build_account_map_coercible (l : list (gmap string cell)) :
  forall m0 m : gmap (option string) string,
  build_account_map m0 (with_email_norm <$> l) = Returns m ->
  forallb coercible l = true.
Proof.
  induction l as [|row l IH]; intros m0 m H; [reflexivity|].
  cbn [fmap list_fmap build_account_map] in H.
  apply bind_Returns in H as (m1 & Hstep & H).
  cbn [forallb]. rewrite (IH m1 m H), andb_true_r.
  rewrite account_step_spec in Hstep. cbn zeta in Hstep.
  unfold coercible. unfold notna in Hstep.
  destruct (isna (row_get row "Numero de cuenta")); [reflexivity|].
  cbn in *. now destruct (py_int (row_get row "Numero de cuenta")).
Qed.

Lemma account_of_integer (e : string) (l : list (gmap string cell)) (v : string) :
  account_of e l = Some v -> exists n, v = str_of_int n.
Proof.
  rewrite account_of_py_int. destruct (last _) as [row|]; [|discriminate].
  destruct (py_int _) as [n|]; [|discriminate].
  intros [= <-]. now exists n.
Qed.

Lemma omap_fst_sublist {A B} (g : A * B -> option B) (l : list (A * B)) :
  sublist (omap (fun x => pair x.1 <$> g x) l).*1 l.*1.
Proof.
  induction l as [|x l IH]; [constructor|].
  cbn. destruct (g x); cbn; now constructor.
Qed.

Section Further.

Variable Timestamp_isoformat : cell -> result string.

Lemma build_record_priorities (account_map : gmap (option string) string)
    (row : gmap string cell) (r : record) :
  build_record Timestamp_isoformat account_map row = Returns r ->
  priorities r
  = omap (fun kc => pair kc.1 <$> safe_str (row_get row (PRIORITY_PREFIX +:+ kc.2)))
         PRIORITY_COLUMNS.
Proof.
  unfold build_record, row_getitem. intros H.
  destruct (row !! "Dirección de correo electrónico") as [c|]; [|discriminate].
  destruct c as [| | | | |e|]; try discriminate.
  destruct (row !! "Nombre(s)") as [fn|]; [|discriminate].
  destruct (row !! "Apellido Paterno") as [lp|]; [|discriminate].
  destruct (row !! "Apellido Materno") as [lm|]; [|discriminate].
  cbn [mbind result_bind fmap result_fmap cell_strip] in H.
  destruct (normalize_generation _) as [g|]; [|discriminate].
  cbn [mbind result_bind mret result_ret] in H.
  injection H as <-. reflexivity.
Qed.

(** X1. The priorities of a record hold an entry for an initiative exactly
    when the cell of its column has a rating (a text that is not blank), with
    the trimmed rating as value: the keys come in the fixed order, each at most
    once, and no value is empty. *)
Theorem priorities_are_sparse (account_map : gmap (option string) string)
    (row : gmap string cell) (r : record) :
  build_record Timestamp_isoformat account_map row = Returns r ->
  (forall k v,
      (k, v) ∈ priorities r
      <-> exists c, (k, c) ∈ PRIORITY_COLUMNS
                    /\ safe_str (row_get row (PRIORITY_PREFIX +:+ c)) = Some v)
  /\ sublist (priorities r).*1 PRIORITY_COLUMNS.*1
  /\ NoDup (priorities r).*1
  /\ Forall (fun kv => kv.2 <> "") (priorities r).
Proof.
  intros H. apply build_record_priorities in H.
  assert (Hiff : forall k v,
      (k, v) ∈ priorities r
      <-> exists c, (k, c) ∈ PRIORITY_COLUMNS
                    /\ safe_str (row_get row (PRIORITY_PREFIX +:+ c)) = Some v).
  { intros k v. rewrite H, list_elem_of_omap. split.
    - intros ([k' c] & Hin & Hv). cbn in Hv.
      apply fmap_Some in Hv as (v' & Hs & [= <- <-]). now exists c.
    - intros (c & Hin & Hs). exists (k, c). split; [exact Hin|]. cbn. now rewrite Hs. }
  assert (Hsub : sublist (priorities r).*1 PRIORITY_COLUMNS.*1)
    by (rewrite H; apply omap_fst_sublist).
  split; [exact Hiff|]. split; [exact Hsub|]. split.
  - refine (sublist_NoDup _ _ _ Hsub). exact (bool_decide_unpack (NoDup PRIORITY_COLUMNS.*1) I).
  - apply List.Forall_forall. intros [k v] Hin. apply list_elem_of_In, Hiff in Hin
      as (c & _ & Hs). cbn. apply safe_str_spec in Hs. tauto.
Qed.

(** X2. In the document of a run, the account number of every record is the
    one the account sheet gives its lowercased e-mail (that of the last account
    row with this normalised e-mail and a number), absent when there is none;
    and an account number that is there is the decimal text of an integer. *)
Theorem account_numbers_are_joined (w w' : world) (doc : output) :
  main Timestamp_isoformat w = (Returns tt, w') ->
  json_files w' !! OUTPUT_PATH = Some doc ->
  exists df,
    read_excel w "tmp/members-accounts.xlsx" = Returns df
    /\ Forall (fun r =>
                 numeroCuenta r = account_of (lower (email r)) (rows df)
                 /\ forall v, numeroCuenta r = Some v -> exists n, v = str_of_int n)
              (members doc).
Proof.
  intros Hmain Hdoc.
  apply main_Returns in Hmain
    as (dfm & dfa & amap & records & _ & Ha & _ & _ & Hmap & Hrec & Hout).
  rewrite Hout in Hdoc. injection Hdoc as <-. cbn [members make_output].
  exists dfa. split; [exact Ha|].
  pose proof (build_account_map_coercible _ _ _ Hmap) as Hok.
  destruct (build_account_map_spec (rows dfa) ∅ Hok) as (m & Hm & Hlook).
  rewrite Hmap in Hm. injection Hm as <-.
  apply build_records_Forall2, Forall2_fmap_l in Hrec.
  apply Forall2_Forall_r with (1 := Hrec). apply Forall_true. intros row r Hr.
  cbn beta in Hr. apply build_record_fields in Hr
    as (e & fn & lp & lm & _ & _ & _ & _ & Hmail & _ & _ & _ & _ & Hnc).
  rewrite Hnc, Hmail, Hlook, lookup_empty.
  destruct (account_of (lower (strip e)) (rows dfa)) as [v|] eqn:Hacc.
  - split; [reflexivity|]. intros v' [= <-]. exact (account_of_integer _ _ _ Hacc).
  - split; [reflexivity | discriminate].
Qed.

Lemma account_numbers_text (w w' : world) (doc : output) :
  main Timestamp_isoformat w = (Returns tt, w') ->
  json_files w' !! OUTPUT_PATH = Some doc ->
  Forall (fun r => forall v, numeroCuenta r = Some v -> exists n, v = str_of_int n)
         (members doc).
Proof.
  intros Hmain Hdoc.
  apply main_Returns in Hmain
    as (dfm & dfa & amap & records & _ & Ha & _ & _ & Hmap & Hrec & Hout).
  rewrite Hout in Hdoc. injection Hdoc as <-. cbn [members make_output].
  pose proof (build_account_map_coercible _ _ _ Hmap) as Hok.
  destruct (build_account_map_spec (rows dfa) ∅ Hok) as (m & Hm & Hlook).
  rewrite Hmap in Hm. injection Hm as <-.
  apply build_records_Forall2, Forall2_fmap_l in Hrec.
  apply Forall2_Forall_r with (1 := Hrec). apply Forall_true. intros row r Hr.
  cbn beta in Hr. apply build_record_fields in Hr
    as (e & fn & lp & lm & _ & _ & _ & _ & _ & _ & _ & _ & _ & Hnc).
  intros v Hv. rewrite Hnc, Hlook, lookup_empty in Hv.
  destruct (account_of (lower (strip e)) (rows dfa)) as [v'|] eqn:Hacc;
    [|discriminate].
  injection Hv as <-. exact (account_of_integer _ _ _ Hacc).
Qed.

Lemma build_record_ok_iff (account_map : gmap (option string) string)
    (row : gmap string cell) :
  (exists r, build_record Timestamp_isoformat account_map (with_email_norm row) = Returns r)
  <-> member_row_ok row = true.
Proof.
  unfold member_row_ok, build_record, row_getitem, COL_GENERATION.
  rewrite !lookup_with_email_norm by discriminate.
  rewrite !row_get_with_email_norm by discriminate.
  unfold COL_EMAIL.
  destruct (row !! "Dirección de correo electrónico") as [c|];
    [|split; [intros [r H]; discriminate H | discriminate]].
  destruct c as [| | | | |e|];
    try (split; [intros [r H]; discriminate H | discriminate]).
  destruct (row !! "Nombre(s)") as [fn|];
    [|split; [intros [r H]; discriminate H | discriminate]].
  destruct (row !! "Apellido Paterno") as [lp|];
    [|split; [intros [r H]; discriminate H | discriminate]].
  destruct (row !! "Apellido Materno") as [lm|];
    [|split; [intros [r H]; discriminate H | discriminate]].
  cbn [mbind result_bind fmap result_fmap cell_strip].
  rewrite !bool_decide_eq_true_2 by eauto. cbn [andb].
  destruct (normalize_generation _) as [g|x];
    cbn [mbind result_bind mret result_ret].
  - split; [reflexivity | intros _; eexists; reflexivity].
  - split; [intros [r H]; discriminate H | discriminate].
Qed.

Lemma build_records_ok_iff (account_map : gmap (option string) string)
    (l : list (gmap string cell)) :
  (exists rs, build_records Timestamp_isoformat account_map (with_email_norm <$> l)
              = Returns rs)
  <-> forallb member_row_ok l = true.
Proof.
  induction l as [|row l IH].
  - split; [reflexivity | intros _; now exists []].
  - cbn [fmap list_fmap build_records forallb]. rewrite andb_true_iff, <- IH,
      <- (build_record_ok_iff account_map row). split.
    + intros [rs H]. apply bind_Returns in H as (r & Hr & H).
      apply bind_Returns in H as (rs' & Hrs & _). split; eauto.
    + intros [[r Hr] [rs Hrs]]. exists (r :: rs). now rewrite Hr, Hrs.
Qed.

(** Either a run fails and leaves the world as it was, or it ends well. *)
Lemma main_cases (w : world) :
  (exists e, main Timestamp_isoformat w = (Raises e, w))
  \/ (exists w', main Timestamp_isoformat w = (Returns tt, w')).
Proof.
  unfold main. destruct (prepare Timestamp_isoformat w); [right | left]; eauto.
Qed.

(** X3. A run ends well exactly when both sheets load, the e-mail column of
    each holds text, every account cell is blank or converts to an integer, and
    every member row that is kept has a text e-mail, the three name columns,
    and a generation that does not overflow. *)
Theorem run_succeeds_iff (w : world) :
  (exists w', main Timestamp_isoformat w = (Returns tt, w'))
  <-> exists df_members df_accounts,
        read_excel w "tmp/members.xlsx" = Returns df_members
        /\ read_excel w "tmp/members-accounts.xlsx" = Returns df_accounts
        /\ dtypes df_members !! COL_EMAIL = Some DObject
        /\ dtypes df_accounts !! COL_EMAIL = Some DObject
        /\ forallb coercible (rows df_accounts) = true
        /\ forallb member_row_ok (List.filter kept (rows df_members)) = true.
Proof.
  split.
  - intros [w' H]. apply main_Returns in H
      as (dfm & dfa & amap & records & Hm & Ha & Hcm & Hca & Hmap & Hrec & _).
    exists dfm, dfa. repeat split; try assumption.
    + exact (build_account_map_coercible _ _ _ Hmap).
    + apply (build_records_ok_iff amap). eauto.
  - intros (dfm & dfa & Hm & Ha & Hcm & Hca & Hok & Hrows).
    destruct (build_account_map_spec (rows dfa) ∅ Hok) as (amap & Hmap & _).
    destruct (proj2 (build_records_ok_iff amap _) Hrows) as [rs Hrs].
    eexists. unfold main, prepare. rewrite Hm, Ha. cbn [mbind result_bind].
    rewrite !add_email_norm_spec, Hcm, Hca. cbn [mbind result_bind rows].
    rewrite Hmap. cbn [mbind result_bind].
    rewrite (drop_excluded_rows _ (rows dfm)) by reflexivity.
    rewrite Hrs. reflexivity.
Qed.

(** X4. A member row whose e-mail cell holds no text is not excluded, and
    the run fails on it: nothing is written. *)
Theorem member_without_email_aborts (w : world) (df_members : DataFrame)
    (row : gmap string cell) :
  read_excel w "tmp/members.xlsx" = Returns df_members ->
  row ∈ rows df_members ->
  (forall s, row !! COL_EMAIL <> Some (CStr s)) ->
  kept row = true /\ exists e, main Timestamp_isoformat w = (Raises e, w).
Proof.
  intros Hm Hin Hmail.
  assert (Hkept : kept row = true).
  { unfold kept, normalized_email.
    destruct (row !! COL_EMAIL) as [[| | | | |s|]|]; try reflexivity.
    exfalso. exact (Hmail s eq_refl). }
  split; [exact Hkept|].
  destruct (main_cases w) as [H | [w' H]]; [exact H|].
  apply main_Returns in H
    as (dfm & dfa & amap & records & Hm' & _ & _ & _ & _ & Hrec & _).
  rewrite Hm in Hm'. injection Hm' as <-.
  assert (Hrows : forallb member_row_ok (List.filter kept (rows df_members)) = true)
    by (apply (build_records_ok_iff amap); eauto).
  rewrite forallb_forall in Hrows.
  assert (Hok : member_row_ok row = true).
  { apply Hrows, filter_In. split; [now apply list_elem_of_In | exact Hkept]. }
  unfold member_row_ok in Hok.
  destruct (row !! COL_EMAIL) as [[| | | | |s|]|]; try discriminate Hok.
  exfalso. exact (Hmail s eq_refl).
Qed.

(** X5. The failures of the loader, in the order of the script: a sheet that
    is not there raises FileNotFoundError, the members first; an e-mail column
    that is not there raises KeyError and one that holds no text raises
    AttributeError, the members first.  The world is left as it was. *)
Theorem loader_failures (w : world) :
  (spreadsheets w !! "tmp/members.xlsx" = None ->
   main Timestamp_isoformat w = (Raises FileNotFoundError, w))
  /\ (forall dfm,
        spreadsheets w !! "tmp/members.xlsx" = Some dfm ->
        spreadsheets w !! "tmp/members-accounts.xlsx" = None ->
        main Timestamp_isoformat w = (Raises FileNotFoundError, w))
  /\ (forall dfm dfa,
        spreadsheets w !! "tmp/members.xlsx" = Some dfm ->
        spreadsheets w !! "tmp/members-accounts.xlsx" = Some dfa ->
        (dtypes dfm !! COL_EMAIL = None ->
         main Timestamp_isoformat w = (Raises KeyError, w))
        /\ (dtypes dfm !! COL_EMAIL = Some DOther ->
            main Timestamp_isoformat w = (Raises AttributeError, w))
        /\ (dtypes dfm !! COL_EMAIL = Some DObject ->
            dtypes dfa !! COL_EMAIL = None ->
            main Timestamp_isoformat w = (Raises KeyError, w))
        /\ (dtypes dfm !! COL_EMAIL = Some DObject ->
            dtypes dfa !! COL_EMAIL = Some DOther ->
            main Timestamp_isoformat w = (Raises AttributeError, w))).
Proof.
  unfold main, prepare, read_excel. split; [|split].
  - now intros ->.
  - now intros dfm -> ->.
  - intros dfm dfa -> ->. cbn [mbind result_bind]. rewrite !add_email_norm_spec.
    repeat split.
    + now intros ->.
    + now intros ->.
    + now intros -> ->.
    + now intros -> ->.
Qed.

(** X6. A run is all or nothing.  When it fails the world is as it was.  When
    it ends well the sheets and the clock are as they were, the only file
    touched is the output file, which holds the document stamped with the
    clock, and five lines are printed after what the console held. *)
Theorem run_is_all_or_nothing (w : world) :
  (exists e, main Timestamp_isoformat w = (Raises e, w))
  \/ (exists w' doc,
        main Timestamp_isoformat w = (Returns tt, w')
        /\ json_files w' = <[OUTPUT_PATH := doc]> (json_files w)
        /\ generatedAt doc = isoformat (clock w)
        /\ spreadsheets w' = spreadsheets w
        /\ clock w' = clock w
        /\ exists lines, stdout w' = stdout w ++ lines /\ length lines = 5%nat).
Proof.
  unfold main. destruct (prepare Timestamp_isoformat w) as [records|e];
    [right | left; eauto].
  eexists _, _. split; [reflexivity|]. cbn. repeat split.
  eexists. now rewrite <- !app_assoc.
Qed.

Lemma row_get_insert_blank {A} (f : cell -> A) (row : gmap string cell) (c k : string) :
  row !! c = None -> f CNaN = f CNone ->
  f (row_get (<[c := CNaN]> row) k) = f (row_get row k).
Proof.
  intros Hc Hf. unfold row_get. destruct (decide (c = k)) as [->|Hne].
  - now rewrite lookup_insert_eq, Hc.
  - now rewrite lookup_insert_ne.
Qed.

(** X7. A column that is read with [row.get] may be missing: the record of a
    row is the one it would have with the column there and its cell blank. *)
Theorem absent_column_is_blank (account_map : gmap (option string) string)
    (row : gmap string cell) (c : string) :
  c ∉ REQUIRED_COLUMNS ->
  row !! c = None ->
  build_record Timestamp_isoformat account_map (<[c := CNaN]> row)
  = build_record Timestamp_isoformat account_map row.
Proof.
  intros Hreq Hc.
  assert (Hne : forall k, k ∈ REQUIRED_COLUMNS -> <[c := CNaN]> row !! k = row !! k).
  { intros k Hk. apply lookup_insert_ne. intros ->. exact (Hreq Hk). }
  unfold build_record, row_getitem, is_member_row.
  rewrite (Hne "Dirección de correo electrónico") by (unfold REQUIRED_COLUMNS, COL_EMAIL; set_solver).
  rewrite (Hne "Nombre(s)") by (unfold REQUIRED_COLUMNS; set_solver).
  rewrite (Hne "Apellido Paterno") by (unfold REQUIRED_COLUMNS; set_solver).
  rewrite (Hne "Apellido Materno") by (unfold REQUIRED_COLUMNS; set_solver).
  cbv zeta.
  rewrite !(row_get_insert_blank safe_str row c _ Hc eq_refl).
  rewrite !(row_get_insert_blank notna row c _ Hc eq_refl).
  rewrite !(row_get_insert_blank normalize_generation row c _ Hc eq_refl).
  rewrite !(row_get_insert_blank normalize_academic_level row c _ Hc eq_refl).
  rewrite !(row_get_insert_blank parse_skills row c _ Hc eq_refl).
  rewrite !(row_get_insert_blank (to_iso Timestamp_isoformat) row c _ Hc eq_refl).
  reflexivity.
Qed.

End Further.

(** ** Trimming *)

Lemma string_app_assoc (s1 s2 s3 : string) : (s1 +:+ s2) +:+ s3 = s1 +:+ (s2 +:+ s3).
Proof.
  induction s1 as [|a s1 IH]; [reflexivity|].
  change (String a ((s1 +:+ s2) +:+ s3) = String a (s1 +:+ (s2 +:+ s3))). now f_equal.
Qed.

Lemma string_app_cons (a : ascii) (s1 s2 : string) :
  String a s1 +:+ s2 = String a (s1 +:+ s2).
Proof. reflexivity. Qed.

Lemma string_app_nil_r (s : string) : s +:+ "" = s.
Proof.
  induction s as [|a s IH]; [reflexivity|].
  change (String a (s +:+ "") = String a s). now f_equal.
Qed.

Lemma rev_app_append (s1 s2 : string) :
  String.rev_app s1 s2 = String.rev s1 +:+ s2.
Proof.
  unfold String.rev. revert s2.
  induction s1 as [|a s1 IH]; intros s2; [reflexivity|].
  cbn [String.rev_app]. rewrite (IH (String a s2)), (IH (String a "")).
  now rewrite string_app_assoc.
Qed.

Lemma rev_append (s1 s2 : string) :
  String.rev (s1 +:+ s2) = String.rev s2 +:+ String.rev s1.
Proof.
  induction s1 as [|a s1 IH].
  - change ("" +:+ s2) with s2. change (String.rev "") with "".
    now rewrite string_app_nil_r.
  - change (String a s1 +:+ s2) with (String a (s1 +:+ s2)).
    unfold String.rev at 1 3. cbn [String.rev_app].
    rewrite !rev_app_append, IH. now rewrite string_app_assoc.
Qed.

Lemma rev_rev (s : string) : String.rev (String.rev s) = s.
Proof.
  induction s as [|a s IH]; [reflexivity|].
  unfold String.rev at 2. cbn [String.rev_app].
  rewrite rev_app_append, rev_append, IH. reflexivity.
Qed.

(** What [drop_ws] removes is a prefix. *)
Lemma drop_ws_suffix (back : bool) (n : nat) :
  forall s, (String.length s <= n)%nat -> exists l, s = l +:+ drop_ws back s.
Proof.
  induction n as [|n IH]; intros s Hlen.
  - destruct s; [now exists "" | cbn in Hlen; lia].
  - destruct s as [|a s1]; [now exists ""|].
    cbn [drop_ws]. destruct (ws1 a).
    { destruct (IH s1) as [l Hl]; [cbn in Hlen; lia|].
      exists (String a l). rewrite string_app_cons. now rewrite <- Hl. }
    destruct s1 as [|b s2]; [now exists ""|].
    destruct (if back then ws2 b a else ws2 a b).
    { destruct (IH s2) as [l Hl]; [cbn in Hlen; lia|].
      exists (String a (String b l)). rewrite !string_app_cons. now rewrite <- Hl. }
    destruct s2 as [|c s3]; [now exists ""|].
    destruct (if back then ws3 c b a else ws3 a b c); [|now exists ""].
    destruct (IH s3) as [l Hl]; [cbn in Hlen; lia|].
    exists (String a (String b (String c l))). rewrite !string_app_cons.
    now rewrite <- Hl.
Qed.

Lemma append_length (s1 s2 : string) :
  String.length (s1 +:+ s2) = (String.length s1 + String.length s2)%nat.
Proof.
  induction s1 as [|a s1 IH]; [reflexivity|].
  rewrite string_app_cons. cbn [String.length]. now rewrite IH.
Qed.

Lemma drop_ws_length (back : bool) (s : string) :
  (String.length (drop_ws back s) <= String.length s)%nat.
Proof.
  destruct (drop_ws_suffix back (String.length s) s (le_n _)) as [l Hl].
  rewrite Hl at 2. rewrite append_length. lia.
Qed.

(** What [drop_ws] gives has no white space in front. *)
Lemma drop_ws_fixed (back : bool) (n : nat) :
  forall s, (String.length s <= n)%nat ->
  drop_ws back (drop_ws back s) = drop_ws back s.
Proof.
  induction n as [|n IH]; intros s Hlen.
  - destruct s; [reflexivity | cbn in Hlen; lia].
  - destruct s as [|a s1]; [reflexivity|].
    cbn [drop_ws]. destruct (ws1 a) eqn:H1.
    { apply IH. cbn in Hlen. lia. }
    destruct s1 as [|b s2]; [cbn; now rewrite H1|].
    destruct (if back then ws2 b a else ws2 a b) eqn:H2.
    { apply IH. cbn in Hlen. lia. }
    destruct s2 as [|c s3]; [cbn; now rewrite H1, H2|].
    destruct (if back then ws3 c b a else ws3 a b c) eqn:H3.
    { apply IH. cbn in Hlen. lia. }
    cbn. now rewrite H1, H2, H3.
Qed.

(** A text without white space in front keeps none when it is cut short. *)
Lemma lstrip_prefix (u z : string) :
  lstrip (u +:+ z) = u +:+ z -> lstrip u = u.
Proof.
  unfold lstrip. intros H.
  assert (Hshort : forall t, (String.length t < String.length (u +:+ z))%nat ->
                             drop_ws false t <> u +:+ z).
  { intros t Ht Heq. pose proof (drop_ws_length false t) as Hle.
    rewrite Heq in Hle. lia. }
  destruct u as [|a u1]; [reflexivity|].
  rewrite string_app_cons in H, Hshort.
  cbn [drop_ws] in H |- *.
  destruct (ws1 a).
  { exfalso. apply (Hshort (u1 +:+ z)); [cbn; lia | exact H]. }
  destruct u1 as [|b u2]; [reflexivity|].
  rewrite string_app_cons in H, Hshort. cbv beta iota in H.
  destruct (ws2 a b).
  { exfalso. apply (Hshort (u2 +:+ z)); [cbn; lia | exact H]. }
  destruct u2 as [|c u3]; [reflexivity|].
  rewrite string_app_cons in H, Hshort. cbv beta iota in H.
  destruct (ws3 a b c); [|reflexivity].
  exfalso. apply (Hshort (u3 +:+ z)); [cbn; lia | exact H].
Qed.

Lemma rstrip_prefix (t : string) : exists z, t = rstrip t +:+ z.
Proof.
  unfold rstrip.
  destruct (drop_ws_suffix true _ (String.rev t) (le_n _)) as [l Hl].
  exists (String.rev l).
  rewrite <- (rev_rev t) at 1. rewrite Hl at 1. apply rev_append.
Qed.

Lemma strip_idempotent (s : string) : strip (strip s) = strip s.
Proof.
  unfold strip.
  assert (Hl : lstrip (rstrip (lstrip s)) = rstrip (lstrip s)).
  { destruct (rstrip_prefix (lstrip s)) as [z Hz].
    apply (lstrip_prefix _ z). rewrite <- Hz.
    apply (drop_ws_fixed false _ s (le_n _)). }
  rewrite Hl. unfold rstrip at 1 2. rewrite rev_rev.
  now rewrite (drop_ws_fixed true _ _ (le_n _)).
Qed.

Lemma strip_substring (s : string) : exists l r, s = l +:+ strip s +:+ r.
Proof.
  destruct (drop_ws_suffix false _ s (le_n _)) as [l Hl].
  destruct (rstrip_prefix (lstrip s)) as [r Hr].
  exists l, r. unfold strip. fold (lstrip s) in Hl. now rewrite <- Hr.
Qed.

Lemma chars_append (s1 s2 : string) :
  list_ascii_of_string (s1 +:+ s2) = list_ascii_of_string s1 ++ list_ascii_of_string s2.
Proof.
  induction s1 as [|a s1 IH]; [reflexivity|].
  rewrite string_app_cons. cbn. now rewrite IH.
Qed.

Lemma strip_keeps (P : ascii -> bool) (s : string) :
  forallb P (list_ascii_of_string s) = true ->
  forallb P (list_ascii_of_string (strip s)) = true.
Proof.
  destruct (strip_substring s) as (l & r & Hs). intros H.
  rewrite Hs, !chars_append, !forallb_app in H.
  now apply andb_true_iff in H as [_ [H _]%andb_true_iff].
Qed.

(** X10. What [safe_str] gives is trimmed and not empty, and [safe_str]
    leaves it as it is when it is read again. *)
Theorem safe_str_is_idempotent (c : cell) (s : string) :
  safe_str c = Some s ->
  strip s = s /\ s <> "" /\ safe_str (CStr s) = Some s.
Proof.
  intros H. apply safe_str_spec in H as (_ & -> & Hne).
  assert (Hs : strip (strip (py_str c)) = strip (py_str c)) by apply strip_idempotent.
  split; [exact Hs|]. split; [exact Hne|].
  unfold safe_str. cbn [isna py_str]. rewrite Hs.
  destruct (strip (py_str c)); [now contradict Hne | reflexivity].
Qed.

(** ** Skills, written and read again *)

Lemma split_on_plain (sep : ascii -> bool) (x : string) :
  forallb (fun c => negb (sep c)) (list_ascii_of_string x) = true ->
  split_on sep x = [x].
Proof.
  induction x as [|a x IH]; [reflexivity|].
  cbn. intros [Ha Hx]%andb_true_iff. apply negb_true_iff in Ha.
  now rewrite Ha, (IH Hx).
Qed.

Lemma split_on_append (sep : ascii -> bool) (x : string) (c : ascii) (s : string) :
  forallb (fun c => negb (sep c)) (list_ascii_of_string x) = true ->
  sep c = true ->
  split_on sep (x +:+ String c s) = x :: split_on sep s.
Proof.
  intros Hx Hc. induction x as [|a x IH].
  - change ("" +:+ String c s) with (String c s). cbn [split_on]. now rewrite Hc.
  - cbn in Hx. apply andb_true_iff in Hx as [Ha Hx]. apply negb_true_iff in Ha.
    rewrite string_app_cons. cbn [split_on]. now rewrite Ha, (IH Hx).
Qed.

Lemma skills_after_space (s : string) :
  List.filter truthy (strip <$> split_on comma_or_semicolon (String " " s))
  = List.filter truthy (strip <$> split_on comma_or_semicolon s).
Proof.
  cbn [split_on]. change (comma_or_semicolon " ") with false. cbv iota.
  destruct (split_on comma_or_semicolon s) as [|t ts] eqn:E;
    [now apply split_on_nonempty in E|].
  reflexivity.
Qed.

Lemma skills_of_joined (l : list string) :
  forallb skill_ok l = true ->
  List.filter truthy (strip <$> split_on comma_or_semicolon (join ", " l)) = l.
Proof.
  induction l as [|x l IH]; [reflexivity|].
  cbn [forallb]. intros [Hx Hl]%andb_true_iff.
  unfold skill_ok in Hx. apply andb_true_iff in Hx as [[Hs Ht]%andb_true_iff Hc].
  apply String.eqb_eq in Hs.
  destruct l as [|y l].
  - cbn [join]. rewrite (split_on_plain _ x Hc). cbn. now rewrite Hs, Ht.
  - change (join ", " (x :: y :: l)) with (x +:+ String "," (String " " (join ", " (y :: l)))).
    rewrite (split_on_append _ x "," _ Hc eq_refl).
    cbn [fmap list_fmap List.filter]. rewrite Hs, Ht.
    now rewrite skills_after_space, (IH Hl).
Qed.

Lemma parse_skills_text (s : string) :
  parse_skills (CStr s)
  = List.filter truthy (strip <$> split_on comma_or_semicolon s).
Proof.
  unfold parse_skills. cbn [isna py_str]. now rewrite keep_trimmed, split_char_replace.
Qed.

Lemma parse_skills_ok (raw : cell) : forallb skill_ok (parse_skills raw) = true.
Proof.
  unfold parse_skills. destruct (isna raw); [reflexivity|].
  rewrite keep_trimmed, split_char_replace.
  pose proof (split_on_tokens comma_or_semicolon (py_str raw)) as Htok.
  induction Htok as [|t ts Ht _ IH]; [reflexivity|].
  cbn [fmap list_fmap List.filter].
  destruct (truthy (strip t)) eqn:Htr; [|exact IH].
  cbn [forallb]. rewrite IH, andb_true_r. unfold skill_ok.
  rewrite strip_idempotent, String.eqb_refl, Htr. cbn [andb].
  now apply strip_keeps.
Qed.

(** X8. Every skill that [parse_skills] gives is trimmed, is not empty and
    holds no comma or semicolon; and the skills, written out with ", " between
    them and parsed again, are the same skills. *)
Theorem parse_skills_is_stable (raw : cell) :
  Forall (fun t => strip t = t /\ t <> ""
                   /\ forallb (fun c => negb (comma_or_semicolon c))
                              (list_ascii_of_string t) = true)
         (parse_skills raw)
  /\ parse_skills (CStr (join ", " (parse_skills raw))) = parse_skills raw.
Proof.
  pose proof (parse_skills_ok raw) as Hok. split.
  - rewrite forallb_forall in Hok. apply List.Forall_forall. intros t Hin.
    specialize (Hok t Hin). unfold skill_ok in Hok.
    apply andb_true_iff in Hok as [[Hs Ht]%andb_true_iff Hc].
    apply String.eqb_eq in Hs. repeat split; try assumption.
    intros ->. discriminate Ht.
  - rewrite parse_skills_text. now apply skills_of_joined.
Qed.

(** X9. A list of skills, each trimmed, not empty and without comma or
    semicolon, is read back as it is from the text that joins them with
    ", ". *)
Theorem parse_skills_reads_back (l : list string) :
  forallb skill_ok l = true ->
  parse_skills (CStr (join ", " l)) = l.
Proof.
  intros Hl. rewrite parse_skills_text. now apply skills_of_joined.
Qed.

(** ** Whole numbers as generations *)

Lemma rne_div_one (x : Z) : rne_div x 1 = x.
Proof.
  unfold rne_div. rewrite Z.div_1_r, Z.mod_1_r. reflexivity.
Qed.

Lemma scale2_down (a e : Z) : e <= 0 -> scale2 a 1 e = (a * 2 ^ (- e), 1).
Proof.
  intros He. unfold scale2. destruct (0 <=? e) eqn:E; [|reflexivity].
  apply Z.leb_le in E. assert (e = 0) as -> by lia. cbn. f_equal. lia.
Qed.

(** An integer of at most 53 bits is a float as it is. *)
Lemma b64_round_exact (neg : bool) (a : Z) :
  0 < a < 2 ^ 53 ->
  b64_round neg a 1
  = FFin neg (Z.to_N (a * 2 ^ (52 - Z.log2 a))) (Z.log2 a - 52).
Proof.
  intros Ha. unfold b64_round.
  destruct (Z.eqb_spec a 0) as [->|_]; [lia|].
  change (Z.log2 1) with 0. rewrite Z.sub_0_r.
  pose proof (Z.log2_spec a ltac:(lia)) as [Hlo Hhi].
  assert (Hk : 0 <= Z.log2 a <= 52).
  { split; [apply Z.log2_nonneg|].
    assert (Z.log2 a < 53); [|lia]. apply Z.log2_lt_pow2; lia. }
  set (k := Z.log2 a) in *.
  rewrite (scale2_down a (k - 52)) by lia.
  replace (- (k - 52)) with (52 - k) by lia.
  rewrite Z.div_1_r.
  assert (Hpow : 2 ^ 52 = 2 ^ k * 2 ^ (52 - k)).
  { rewrite <- Z.pow_add_r by lia. f_equal. lia. }
  assert (Hpow' : 2 ^ 53 = 2 ^ Z.succ k * 2 ^ (52 - k)).
  { rewrite <- Z.pow_add_r by lia. f_equal. lia. }
  assert (Hp : 0 < 2 ^ (52 - k)) by (apply Z.pow_pos_nonneg; lia).
  assert (Hm1 : 2 ^ 52 <= a * 2 ^ (52 - k)) by (rewrite Hpow; nia).
  assert (Hm2 : a * 2 ^ (52 - k) < 2 ^ 53) by (rewrite Hpow'; nia).
  destruct (Z.ltb_spec (a * 2 ^ (52 - k)) (2 ^ 52)) as [Hlt|_]; [lia|].
  rewrite Z.max_l by lia.
  rewrite (scale2_down a (k - 52)) by lia.
  replace (- (k - 52)) with (52 - k) by lia.
  rewrite rne_div_one.
  destruct (Z.eqb_spec (a * 2 ^ (52 - k)) (2 ^ 53)) as [Heq|_]; [lia|].
  destruct (Z.ltb_spec 971 (k - 52)) as [Hbig|_]; [lia|].
  reflexivity.
Qed.

Lemma int_of_float_exact (neg : bool) (a : Z) :
  0 < a < 2 ^ 53 ->
  (f ← Returns (b64_round neg a 1); int_of_float f) = Returns (if neg then - a else a).
Proof.
  intros Ha. rewrite (b64_round_exact neg a Ha). cbn [mbind result_bind].
  pose proof (Z.log2_spec a ltac:(lia)) as [Hlo Hhi].
  assert (Hk : 0 <= Z.log2 a <= 52).
  { split; [apply Z.log2_nonneg|].
    assert (Z.log2 a < 53); [|lia]. apply Z.log2_lt_pow2; lia. }
  set (k := Z.log2 a) in *.
  assert (Hp : 0 < 2 ^ (52 - k)) by (apply Z.pow_pos_nonneg; lia).
  unfold int_of_float, ratio_of. rewrite Z2N.id by nia.
  assert (Hq : (if 0 <=? k - 52
                then (a * 2 ^ (52 - k) * 2 ^ (k - 52)) / 1
                else (a * 2 ^ (52 - k)) / 2 ^ (- (k - 52))) = a).
  { destruct (Z.leb_spec 0 (k - 52)).
    - assert (k = 52) as -> by lia. cbn. rewrite Z.div_1_r. lia.
    - replace (- (k - 52)) with (52 - k) by lia. apply Z.div_mul. lia. }
  destruct (0 <=? k - 52); cbn [fst snd]; rewrite Hq; reflexivity.
Qed.

(** X11. A generation that is a whole number comes out as the digits of that
    number: an integer cell of less than 53 bits, and a float cell whose value
    is a whole number.  Beyond 53 bits an integer cell goes through the nearest
    float: 2^53 + 1 comes out as 2^53. *)
Theorem whole_generation_is_kept :
  (forall n, Z.abs n < 2 ^ 53 ->
             normalize_generation (CInt n) = Returns (Some (str_of_int n)))
  /\ (forall neg m e, 0 <= e ->
        normalize_generation (CFloat (FFin neg m e))
        = Returns (Some (str_of_int ((if neg then -1 else 1) * (Z.of_N m * 2 ^ e)))))
  /\ normalize_generation (CInt 9007199254740993) = Returns (Some "9007199254740992").
Proof.
  split; [|split].
  - intros n Hn. unfold normalize_generation. cbn [isna py_float].
    destruct (Z.eq_dec n 0) as [->|Hnz]; [reflexivity|].
    unfold float_of_int.
    assert (Ha : 0 < Z.abs n < 2 ^ 53) by lia.
    pose proof (int_of_float_exact (n <? 0) (Z.abs n) Ha) as Hint.
    rewrite (b64_round_exact (n <? 0) (Z.abs n) Ha) in Hint |- *.
    cbn [mbind result_bind] in Hint |- *. rewrite Hint. cbn.
    do 3 f_equal. destruct (Z.ltb_spec n 0); lia.
  - intros neg m e He. unfold normalize_generation. cbn [isna py_float mbind result_bind].
    rewrite int_of_float_finite. cbn. do 3 f_equal.
    unfold integer_part, ratio_of. apply Z.leb_le in He. rewrite He.
    rewrite Z.quot_1_r. destruct neg; lia.
  - vm_compute. reflexivity.
Qed.

(** ** The console and the counts *)

Lemma str_of_int_not_empty (n : Z) : str_of_int n <> "".
Proof.
  unfold str_of_int. destruct (Z.to_int n) as [d|d]; cbn; [|discriminate].
  destruct d; cbn; discriminate.
Qed.

Lemma filter_length_split {A} (f : A -> bool) (l : list A) :
  (length (List.filter f l) + length (List.filter (fun a => negb (f a)) l)
   = length l)%nat.
Proof.
  induction l as [|a l IH]; [reflexivity|].
  cbn. destruct (f a); cbn; lia.
Qed.

Section Console.

Variable Timestamp_isoformat : cell -> result string.

(** X12. A run that ends well prints, after what the console held, the
    number of records written, the numbers of members and of collaborators as
    the document has them, the number of records that have an account number,
    and a fifth line for the excluded e-mails. *)
Theorem console_summary (w w' : world) (doc : output) :
  main Timestamp_isoformat w = (Returns tt, w') ->
  json_files w' !! OUTPUT_PATH = Some doc ->
  exists excluded_line,
    stdout w'
    = stdout w
      ++ [ "Wrote " +:+ str_of_nat (length (members doc))
             +:+ " records to tmp/members-import.json";
           "  Members: " +:+ str_of_nat (memberCount doc);
           "  Collaborators: " +:+ str_of_nat (collaboratorCount doc);
           "  With account numbers: "
             +:+ str_of_nat (length (List.filter (fun r => bool_decide (is_Some (numeroCuenta r)))
                                                 (members doc)));
           excluded_line ].
Proof.
  intros Hmain Hdoc.
  pose proof (account_numbers_text Timestamp_isoformat w w' doc Hmain Hdoc) as Hnum.
  unfold main in Hmain.
  destruct (prepare Timestamp_isoformat w) as [records|e]; [|discriminate].
  injection Hmain as <-. cbn in Hdoc. unfold OUTPUT_PATH in Hdoc.
  rewrite lookup_insert_eq in Hdoc. injection Hdoc as <-.
  cbn [members make_output memberCount collaboratorCount] in *.
  assert (Hf : List.filter (fun r => truthy (default "" (numeroCuenta r))) records
               = List.filter (fun r => bool_decide (is_Some (numeroCuenta r))) records).
  { apply filter_ext_in. intros r Hin.
    rewrite List.Forall_forall in Hnum. specialize (Hnum r Hin).
    destruct (numeroCuenta r) as [v|]; [|reflexivity].
    cbn. destruct v; [|reflexivity].
    destruct (Hnum "" eq_refl) as [n Hn]. symmetry in Hn.
    now apply str_of_int_not_empty in Hn. }
  eexists. cbn [stdout print write_json]. rewrite <- !app_assoc. cbn [app].
  rewrite Hf. reflexivity.
Qed.

(** X13. Every member row is either excluded or gives one record: the
    number of records and the number of rows whose normalised e-mail is
    excluded add up to the number of rows of the member sheet. *)
Theorem every_row_is_counted (w w' : world) (doc : output) :
  main Timestamp_isoformat w = (Returns tt, w') ->
  json_files w' !! OUTPUT_PATH = Some doc ->
  exists df,
    read_excel w "tmp/members.xlsx" = Returns df
    /\ (totalMembers doc + length (List.filter (fun row => negb (kept row)) (rows df))
        = length (rows df))%nat.
Proof.
  intros Hmain Hdoc.
  apply main_Returns in Hmain
    as (dfm & dfa & amap & records & Hm & _ & _ & _ & _ & Hrec & Hout).
  rewrite Hout in Hdoc. injection Hdoc as <-. cbn [totalMembers make_output].
  exists dfm. split; [exact Hm|].
  apply build_records_Forall2, Forall2_length in Hrec.
  rewrite length_fmap in Hrec. rewrite <- Hrec. apply filter_length_split.
Qed.

End Console.

(** ** The further properties on the samples *)

(** X1 on the row with a rating for the seminars only: one key. *)
Lemma priorities_are_sparse_witness :
  exists r,
    build_record no_dates ∅ seminar_row = Returns r
    /\ priorities r = [("seminarios", "Alta")]
    /\ sublist (priorities r).*1 PRIORITY_COLUMNS.*1
    /\ NoDup (priorities r).*1
    /\ Forall (fun kv => kv.2 <> "") (priorities r).
Proof.
  eexists. split; [reflexivity|]. split; [reflexivity|].
  exact (proj2 (priorities_are_sparse no_dates ∅ seminar_row _ eq_refl)).
Defined.

(** X2 on the sample run: jdoe has the number of the last account row. *)
Lemma account_numbers_are_joined_witness :
  exists df,
    read_excel sample_world "tmp/members-accounts.xlsx" = Returns df
    /\ Forall (fun r =>
                 numeroCuenta r = account_of (lower (email r)) (rows df)
                 /\ forall v, numeroCuenta r = Some v -> exists n, v = str_of_int n)
              (members sample_doc).
Proof.
  exact (account_numbers_are_joined no_dates sample_world _ sample_doc
           (proj1 sample_run_ends_well) (proj2 sample_run_ends_well)).
Defined.

(** X3 on the sample world: its conditions hold, so the run ends well. *)
Lemma run_succeeds_iff_witness :
  exists w', main no_dates sample_world = (Returns tt, w').
Proof.
  apply (proj2 (run_succeeds_iff no_dates sample_world)).
  exists sample_members, sample_accounts. repeat split.
Defined.

(** X4 on the members with a blank e-mail cell. *)
Lemma member_without_email_aborts_witness :
  kept (member_row CNaN (CStr "Sin") (CStr "Correo") CNaN CNaN CNaN) = true
  /\ exists e, main no_dates blank_email_world = (Raises e, blank_email_world).
Proof.
  refine (member_without_email_aborts no_dates blank_email_world
            members_with_blank_email
            (member_row CNaN (CStr "Sin") (CStr "Correo") CNaN CNaN CNaN)
            eq_refl _ _).
  - unfold members_with_blank_email. cbn [rows]. apply elem_of_app. right. now left.
  - intros s. vm_compute. discriminate.
Defined.

(** X5 on a machine without the sheets. *)
Lemma loader_failures_witness :
  main no_dates bare_world = (Raises FileNotFoundError, bare_world).
Proof.
  exact (proj1 (loader_failures no_dates bare_world) eq_refl).
Defined.

(** X7 on the row of jdoe, which has no LinkedIn column. *)
Lemma absent_column_is_blank_witness :
  build_record no_dates ∅ (<["LinkedIn" := CNaN]> jdoe_row)
  = build_record no_dates ∅ jdoe_row.
Proof.
  exact (absent_column_is_blank no_dates ∅ jdoe_row "LinkedIn"
           (bool_decide_unpack ("LinkedIn" ∉ REQUIRED_COLUMNS) I) eq_refl).
Defined.

(** X9 on three skills. *)
Lemma parse_skills_reads_back_witness :
  parse_skills (CStr (join ", " ["Python"; "Ciencia de datos"; "R"]))
  = ["Python"; "Ciencia de datos"; "R"].
Proof.
  exact (parse_skills_reads_back ["Python"; "Ciencia de datos"; "R"] eq_refl).
Defined.

(** X10 on a padded name. *)
Lemma safe_str_is_idempotent_witness :
  strip "Ana" = "Ana" /\ "Ana" <> "" /\ safe_str (CStr "Ana") = Some "Ana".
Proof.
  exact (safe_str_is_idempotent (CStr "  Ana  ") "Ana" eq_refl).
Defined.

(** X11 on the year 2021, as an integer and as a float. *)
Lemma whole_generation_is_kept_witness :
  normalize_generation (CInt 2021) = Returns (Some "2021")
  /\ normalize_generation (CFloat (FFin false 2021 0)) = Returns (Some "2021").
Proof.
  split.
  - exact (proj1 whole_generation_is_kept 2021 eq_refl).
  - exact (proj1 (proj2 whole_generation_is_kept) false 2021%N 0 (Z.le_refl 0)).
Defined.

(** X12 on the sample run. *)
Lemma console_summary_witness :
  exists excluded_line,
    stdout (snd (main no_dates sample_world))
    = [ "Wrote 2 records to tmp/members-import.json";
        "  Members: 1";
        "  Collaborators: 1";
        "  With account numbers: 1";
        excluded_line ].
Proof.
  exact (console_summary no_dates sample_world _ sample_doc
           (proj1 sample_run_ends_well) (proj2 sample_run_ends_well)).
Defined.

(** X13 on the sample run: two records and one excluded row for three rows. *)
Lemma every_row_is_counted_witness :
  exists df,
    read_excel sample_world "tmp/members.xlsx" = Returns df
    /\ (totalMembers sample_doc
        + length (List.filter (fun row => negb (kept row)) (rows df))
        = length (rows df))%nat.
Proof.
  exact (every_row_is_counted no_dates sample_world _ sample_doc
           (proj1 sample_run_ends_well) (proj2 sample_run_ends_well)).
Defined.
